(** * nrf5-scheduler-tutorial: [main.c] as interaction trees

    The program of [main.c] is glue around the nRF5 SDK: every statement is a
    call into the SDK (clock, logger, GPIOTE driver, application timer).  Each
    function of [main.c] is embedded as an interaction tree whose visible
    events are exactly those SDK calls, in source order; [main] is the
    infinite tree that the [while (true)] loop denotes.  The SDK itself is not
    part of the repository: its effect on the board is given by [sdk_call]
    below, from the specification. *)

From Stdlib Require Import ZArith List String Bool Lia.
From ITree Require Import ITree.
Import ListNotations.
Import ITreeNotations.
Local Open Scope string_scope.
Local Open Scope list_scope.
Local Open Scope Z_scope.
Local Open Scope itree_scope.

(** ** Types of the SDK headers used by [main.c] *)

(** [ret_code_t] / [uint32_t err_code]. *)
Definition ret_code_t := Z.
Definition NRF_SUCCESS : ret_code_t := 0.
Definition NRF_ERROR_NO_MEM : ret_code_t := 4.

(** [nrf_drv_gpiote_pin_t] is [uint32_t]. *)
Definition nrf_drv_gpiote_pin_t := Z.

Variant nrf_gpiote_polarity_t :=
| NRF_GPIOTE_POLARITY_LOTOHI
| NRF_GPIOTE_POLARITY_HITOLO
| NRF_GPIOTE_POLARITY_TOGGLE.

Variant nrf_gpio_pin_pull_t :=
| NRF_GPIO_PIN_NOPULL
| NRF_GPIO_PIN_PULLDOWN
| NRF_GPIO_PIN_PULLUP.

Record nrf_drv_gpiote_out_config_t := {
  init_state : bool;   (* [true] is NRF_GPIOTE_INITIAL_VALUE_HIGH *)
  task_pin : bool
}.

Record nrf_drv_gpiote_in_config_t := {
  sense : nrf_gpiote_polarity_t;
  pull : nrf_gpio_pin_pull_t;
  hi_accuracy : bool
}.

Definition GPIOTE_CONFIG_OUT_SIMPLE (init_high : bool) : nrf_drv_gpiote_out_config_t :=
  {| init_state := init_high; task_pin := false |}.

Definition GPIOTE_CONFIG_IN_SENSE_HITOLO (hi_accu : bool) : nrf_drv_gpiote_in_config_t :=
  {| sense := NRF_GPIOTE_POLARITY_HITOLO; pull := NRF_GPIO_PIN_NOPULL;
     hi_accuracy := hi_accu |}.

Definition set_pull (c : nrf_drv_gpiote_in_config_t) (p : nrf_gpio_pin_pull_t) :=
  {| sense := sense c; pull := p; hi_accuracy := hi_accuracy c |}.

Variant app_timer_mode_t := APP_TIMER_MODE_SINGLE_SHOT | APP_TIMER_MODE_REPEATED.

(** [APP_TIMER_DEF(m_led_a_timer_id)]: the one timer instance of the program. *)
Variant app_timer_id_t := m_led_a_timer_id.

(** The two functions of [main.c] whose address is handed to the SDK. *)
Variant callback := gpiote_event_handler_ptr | timer_handler_ptr.

(** A [void *] argument; [main.c] only ever passes [NULL]. *)
Definition NULL : option Z := None.

(** ** Calls into the SDK *)

(** One constructor per SDK function or macro called in [main.c], indexed by
    the type of what the call hands back.  [app_error_handler] is the failing
    branch of [APP_ERROR_CHECK]: it has no answer, control never comes back. *)
Variant sdkE : Type -> Type :=
| nrf_drv_clock_init : sdkE ret_code_t
| nrf_drv_clock_lfclk_request (p_handler_item : option Z) : sdkE unit
| NRF_LOG_INIT (timestamp_func : option Z) : sdkE ret_code_t
| NRF_LOG_DEFAULT_BACKENDS_INIT : sdkE unit
| NRF_LOG_INFO (msg : string) : sdkE unit
| nrf_drv_gpiote_init : sdkE ret_code_t
| nrf_drv_gpiote_out_init (pin : nrf_drv_gpiote_pin_t)
    (p_config : nrf_drv_gpiote_out_config_t) : sdkE ret_code_t
| nrf_drv_gpiote_out_set (pin : nrf_drv_gpiote_pin_t) : sdkE unit
| nrf_drv_gpiote_out_toggle (pin : nrf_drv_gpiote_pin_t) : sdkE unit
| nrf_drv_gpiote_in_init (pin : nrf_drv_gpiote_pin_t)
    (p_config : nrf_drv_gpiote_in_config_t) (evt_handler : callback) : sdkE ret_code_t
| nrf_drv_gpiote_in_event_enable (pin : nrf_drv_gpiote_pin_t) (int_enable : bool) : sdkE unit
| app_timer_init : sdkE ret_code_t
| app_timer_create (p_timer_id : app_timer_id_t) (mode : app_timer_mode_t)
    (timeout_handler : callback) : sdkE ret_code_t
| app_timer_start (timer_id : app_timer_id_t) (timeout_ticks : Z)
    (p_context : option Z) : sdkE ret_code_t
| app_timer_stop (timer_id : app_timer_id_t) : sdkE ret_code_t
| current_int_priority_get : sdkE Z
| __WFI : sdkE unit
| app_error_handler (error_code : ret_code_t) : sdkE void.

(** Modelled from the spec: [APP_ERROR_CHECK] of [app_error.h], which is not
    in the repository.  Section 7: any non-success status is fatal and traps
    the program at the point of detection. *)
Definition APP_ERROR_CHECK (err_code : ret_code_t) : itree sdkE unit :=
  if err_code =? NRF_SUCCESS then Ret tt
  else Vis (app_error_handler err_code) (fun v : void => match v with end).

(** ** The board as the SDK sees it *)

(** The state of the blink timer (spec, section 3). *)
Variant BlinkState := STOPPED | RUNNING.

(** One completed SDK call: which call, and what it handed back. *)
Inductive call : Type :=
| Call (T : Type) (e : sdkE T) (answer : T).
Arguments Call {T} e answer.

Record World := {
  answers : list ret_code_t;      (* statuses the SDK will report, in call order *)
  priority : Z;                   (* priority level the CPU is executing at *)
  log : list string;              (* diagnostic sink, oldest line first *)
  level : nrf_drv_gpiote_pin_t -> bool;              (* output latch, [true] is high *)
  in_handler : nrf_drv_gpiote_pin_t -> option callback;
  in_enabled : nrf_drv_gpiote_pin_t -> bool;
  timeout_handler : option callback;                  (* set by [app_timer_create] *)
  blink : BlinkState;
  period : option Z;              (* ticks given to the latest accepted start *)
  history : list call             (* every SDK call made so far, oldest first *)
}.

Definition set_answers (l : list ret_code_t) (w : World) : World :=
  {| answers := l; priority := priority w; log := log w; level := level w;
     in_handler := in_handler w; in_enabled := in_enabled w;
     timeout_handler := timeout_handler w; blink := blink w; period := period w;
     history := history w |}.

Definition set_priority (p : Z) (w : World) : World :=
  {| answers := answers w; priority := p; log := log w; level := level w;
     in_handler := in_handler w; in_enabled := in_enabled w;
     timeout_handler := timeout_handler w; blink := blink w; period := period w;
     history := history w |}.

Definition set_log (l : list string) (w : World) : World :=
  {| answers := answers w; priority := priority w; log := l; level := level w;
     in_handler := in_handler w; in_enabled := in_enabled w;
     timeout_handler := timeout_handler w; blink := blink w; period := period w;
     history := history w |}.

Definition set_level (f : nrf_drv_gpiote_pin_t -> bool) (w : World) : World :=
  {| answers := answers w; priority := priority w; log := log w; level := f;
     in_handler := in_handler w; in_enabled := in_enabled w;
     timeout_handler := timeout_handler w; blink := blink w; period := period w;
     history := history w |}.

Definition set_in_handler (f : nrf_drv_gpiote_pin_t -> option callback) (w : World) : World :=
  {| answers := answers w; priority := priority w; log := log w; level := level w;
     in_handler := f; in_enabled := in_enabled w;
     timeout_handler := timeout_handler w; blink := blink w; period := period w;
     history := history w |}.

Definition set_in_enabled (f : nrf_drv_gpiote_pin_t -> bool) (w : World) : World :=
  {| answers := answers w; priority := priority w; log := log w; level := level w;
     in_handler := in_handler w; in_enabled := f;
     timeout_handler := timeout_handler w; blink := blink w; period := period w;
     history := history w |}.

Definition set_timeout_handler (h : option callback) (w : World) : World :=
  {| answers := answers w; priority := priority w; log := log w; level := level w;
     in_handler := in_handler w; in_enabled := in_enabled w;
     timeout_handler := h; blink := blink w; period := period w;
     history := history w |}.

Definition set_blink (b : BlinkState) (w : World) : World :=
  {| answers := answers w; priority := priority w; log := log w; level := level w;
     in_handler := in_handler w; in_enabled := in_enabled w;
     timeout_handler := timeout_handler w; blink := b; period := period w;
     history := history w |}.

Definition set_period (p : option Z) (w : World) : World :=
  {| answers := answers w; priority := priority w; log := log w; level := level w;
     in_handler := in_handler w; in_enabled := in_enabled w;
     timeout_handler := timeout_handler w; blink := blink w; period := p;
     history := history w |}.

Definition record (c : call) (w : World) : World :=
  {| answers := answers w; priority := priority w; log := log w; level := level w;
     in_handler := in_handler w; in_enabled := in_enabled w;
     timeout_handler := timeout_handler w; blink := blink w; period := period w;
     history := history w ++ [c] |}.

(** Point update of a per-pin table. *)
Definition upd {A : Type} (f : nrf_drv_gpiote_pin_t -> A) (pin : nrf_drv_gpiote_pin_t) (a : A)
  : nrf_drv_gpiote_pin_t -> A :=
  fun q => if q =? pin then a else f q.

(** The status of the next fallible call: the head of [answers], and
    [NRF_SUCCESS] once the list is used up. *)
Definition next_status (w : World) : ret_code_t :=
  match answers w with [] => NRF_SUCCESS | c :: _ => c end.

Definition pop_status (w : World) : World := set_answers (tl (answers w)) w.

(** A fallible call: its effect [accept] takes place only when the SDK
    reports success. *)
Definition fallible (accept : World -> World) (w : World) : World * (ret_code_t + ret_code_t) :=
  let c := next_status w in
  let w' := pop_status w in
  (if c =? NRF_SUCCESS then accept w' else w', inl c).

(** Modelled from the spec: the SDK services behind the calls (clock,
    logger, GPIOTE driver, application timer), none of which is in the
    repository.  Sections 2-4 and 6: the logger is an append-only sink; an
    accepted start makes the timer RUNNING at the requested period, an
    accepted stop makes it STOPPED; set and toggle drive the output latch.
    The result is the new world and either the answer of the call or, for
    [app_error_handler], the error code the program stops with. *)
Definition sdk_call {T : Type} (e : sdkE T) (w : World) : World * (T + ret_code_t) :=
  match e in sdkE T return World * (T + ret_code_t) with
  | nrf_drv_clock_init => fallible (fun w => w) w
  | nrf_drv_clock_lfclk_request _ => (w, inl tt)
  | NRF_LOG_INIT _ => fallible (fun w => w) w
  | NRF_LOG_DEFAULT_BACKENDS_INIT => (w, inl tt)
  | NRF_LOG_INFO msg => (set_log (log w ++ [msg]) w, inl tt)
  | nrf_drv_gpiote_init => fallible (fun w => w) w
  | nrf_drv_gpiote_out_init pin cfg =>
      fallible (fun w => set_level (upd (level w) pin (init_state cfg)) w) w
  | nrf_drv_gpiote_out_set pin => (set_level (upd (level w) pin true) w, inl tt)
  | nrf_drv_gpiote_out_toggle pin =>
      (set_level (upd (level w) pin (negb (level w pin))) w, inl tt)
  | nrf_drv_gpiote_in_init pin _ h =>
      fallible (fun w => set_in_handler (upd (in_handler w) pin (Some h)) w) w
  | nrf_drv_gpiote_in_event_enable pin _ =>
      (set_in_enabled (upd (in_enabled w) pin true) w, inl tt)
  | app_timer_init => fallible (fun w => w) w
  | app_timer_create _ _ h => fallible (set_timeout_handler (Some h)) w
  | app_timer_start _ ticks _ =>
      fallible (fun w => set_period (Some ticks) (set_blink RUNNING w)) w
  | app_timer_stop _ => fallible (set_blink STOPPED) w
  | current_int_priority_get => (w, inl (priority w))
  | __WFI => (w, inl tt)
  | app_error_handler error_code => (w, inr error_code)
  end.

(** ** Running a tree on the board *)

(** How far a run got: the function returned, the program was stopped by
    [app_error_handler], or it is still executing when the fuel is spent. *)
Variant result (R : Type) : Type :=
| Returned (r : R)
| Halted (error_code : ret_code_t)
| Running.
Arguments Returned {R} r.
Arguments Halted {R} error_code.
Arguments Running {R}.

(** Each node of the tree (a call, or a silent step of the loop) costs one
    unit of fuel. *)
Fixpoint run {R : Type} (fuel : nat) (t : itree sdkE R) (w : World) : result R * World :=
  match fuel with
  | O => (Running, w)
  | S fuel' =>
      match observe t with
      | RetF r => (Returned r, w)
      | TauF t' => run fuel' t' w
      | VisF e k =>
          match sdk_call e w with
          | (w', inl a) => run fuel' (k a) (record (Call e a) w')
          | (w', inr c) => (Halted c, w')
          end
      end
  end.

(** The same machine stopped after [n] nodes: what is left of the tree, or
    how the run ended. *)
Fixpoint steps {R : Type} (n : nat) (t : itree sdkE R) (w : World)
  : (itree sdkE R + result R) * World :=
  match n with
  | O => (inl t, w)
  | S n' =>
      match observe t with
      | RetF r => (inr (Returned r), w)
      | TauF t' => steps n' t' w
      | VisF e k =>
          match sdk_call e w with
          | (w', inl a) => steps n' (k a) (record (Call e a) w')
          | (w', inr c) => (inr (Halted c), w')
          end
      end
  end.

(** The loop of [main]. *)
Definition idle : itree sdkE Z := ITree.forever (ITree.trigger __WFI).

(** ** Power-on state and a concrete board *)

(** Modelled from the spec: the board at reset, before [main] runs (sections
    3 and 8: the timer is STOPPED, nothing has been logged).  The CPU
    starts in thread mode at priority [thread_prio]; [ans] is what the SDK
    is going to answer. *)
Definition power_on (thread_prio : Z) (ans : list ret_code_t) : World :=
  {| answers := ans; priority := thread_prio; log := [];
     level := fun _ => false; in_handler := fun _ => None;
     in_enabled := fun _ => false; timeout_handler := None;
     blink := STOPPED; period := None; history := [] |}.

(** The next [n] fallible calls are going to succeed. *)
Definition accepts (n : nat) (w : World) : Prop :=
  Forall (fun c => c = NRF_SUCCESS) (firstn n (answers w)).

(** The status carried by a call, for the calls that report one. *)
Definition status_of (c : call) : option ret_code_t :=
  match c with
  | Call e a =>
      match e in sdkE T return T -> option ret_code_t with
      | nrf_drv_clock_init => Some
      | NRF_LOG_INIT _ => Some
      | nrf_drv_gpiote_init => Some
      | nrf_drv_gpiote_out_init _ _ => Some
      | nrf_drv_gpiote_in_init _ _ _ => Some
      | app_timer_init => Some
      | app_timer_create _ _ _ => Some
      | app_timer_start _ _ _ => Some
      | app_timer_stop _ => Some
      | _ => fun _ => None
      end a
  end.

(** The call did not report a failure. *)
Definition succeeded (x : call) : bool :=
  match status_of x with
  | Some code => code =? NRF_SUCCESS
  | None => true
  end.

(** A trace whose last call reported [code] and in which every call
    before it succeeded. *)
Fixpoint stops_at (code : ret_code_t) (tr : list call) : Prop :=
  match tr with
  | [] => False
  | x :: rest =>
      match rest with
      | [] => status_of x = Some code
      | _ :: _ => succeeded x = true /\ stops_at code rest
      end
  end.

(** Fail-fast (spec, section 7), for a run that started in [w] and ended as
    [r]: a call that reported a non-success status is the last call the
    program ever made, and the program was stopped with that status. *)
Definition fail_fast {R : Type} (w : World) (r : result R * World) : Prop :=
  forall (pre post : list call) (x : call) (code : ret_code_t),
    history (snd r) = history w ++ pre ++ x :: post ->
    status_of x = Some code -> code <> NRF_SUCCESS ->
    post = [] /\ fst r = Halted code.

(** How many times [line] occurs among [lines]. *)
Definition count_line (line : string) (lines : list string) : nat :=
  List.length (filter (String.eqb line) lines).

(** A toggle of an output pin. *)
Definition is_toggle (c : call) : bool :=
  match c with
  | Call (nrf_drv_gpiote_out_toggle _) _ => true
  | _ => false
  end.

(** The call that lets a button raise its interrupt. *)
Definition is_event_enable (c : call) : bool :=
  match c with
  | Call (nrf_drv_gpiote_in_event_enable _ _) _ => true
  | _ => false
  end.

(** A command to the timer service. *)
Definition is_timer_command (c : call) : bool :=
  match c with
  | Call (app_timer_start _ _ _) _ => true
  | Call (app_timer_stop _) _ => true
  | _ => false
  end.

(** Two worlds that differ at most in the recorded history. *)
Definition same_board (w w' : World) : Prop :=
  answers w' = answers w /\ priority w' = priority w /\ log w' = log w /\
  level w' = level w /\ in_handler w' = in_handler w /\
  in_enabled w' = in_enabled w /\ timeout_handler w' = timeout_handler w /\
  blink w' = blink w /\ period w' = period w.

(** What a piece of the program did to the board: the lines it logged, the
    SDK calls it made, the timer state and the pending answers it left;
    everything else is as it was. *)
Definition effect (w w' : World) (lines : list string) (calls : list call)
  (b : BlinkState) (p : option Z) (ans : list ret_code_t) : Prop :=
  log w' = log w ++ lines /\ history w' = history w ++ calls /\
  blink w' = b /\ period w' = p /\ answers w' = ans /\
  priority w' = priority w /\ level w' = level w /\
  in_handler w' = in_handler w /\ in_enabled w' = in_enabled w /\
  timeout_handler w' = timeout_handler w.

(** The nRF52 DK (PCA10040): pin numbers of [boards.h], the thread priority
    level of [app_util_platform.h], and [APP_TIMER_TICKS] of [app_timer.h]
    for the 32768 Hz RTC with prescaler 0. *)
Module PCA10040.
Definition BUTTON_1 : nrf_drv_gpiote_pin_t := 13.
Definition BUTTON_2 : nrf_drv_gpiote_pin_t := 14.
Definition LED_1 : nrf_drv_gpiote_pin_t := 17.
Definition APP_IRQ_PRIORITY_THREAD : Z := 15.
Definition APP_TIMER_TICKS (ms : Z) : Z := (ms * 32768 + 500) / 1000.
(** Priority level of the GPIOTE and RTC1 interrupts. *)
Definition APP_IRQ_PRIORITY_LOW : Z := 6.
End PCA10040.


(** ** The functions of [main.c] *)

Section Program.

(** Board and SDK configuration constants ([boards.h], [app_util_platform.h],
    [app_timer.h]); their values depend on the board the example is built for. *)
Variables BUTTON_1 BUTTON_2 LED_1 : nrf_drv_gpiote_pin_t.
Variable APP_IRQ_PRIORITY_THREAD : Z.
Variable APP_TIMER_TICKS : Z -> Z.

Definition button_handler (pin : nrf_drv_gpiote_pin_t) : itree sdkE unit :=
  (* Handle button press. *)
  (if pin =? BUTTON_1 then
     ITree.trigger (NRF_LOG_INFO "Start toggling LED 1.") ;;
     err_code <- ITree.trigger (app_timer_start m_led_a_timer_id (APP_TIMER_TICKS 500) NULL) ;;
     APP_ERROR_CHECK err_code
   else if pin =? BUTTON_2 then
     ITree.trigger (NRF_LOG_INFO "Stop toggling LED 1.") ;;
     err_code <- ITree.trigger (app_timer_stop m_led_a_timer_id) ;;
     APP_ERROR_CHECK err_code
   else Ret tt) ;;
  (* Log execution mode. *)
  prio <- ITree.trigger current_int_priority_get ;;
  if prio =? APP_IRQ_PRIORITY_THREAD
  then ITree.trigger (NRF_LOG_INFO "Button handler is executing in thread/main mode.")
  else ITree.trigger (NRF_LOG_INFO "Button handler is executing in interrupt handler mode.").


(** The body of [gpiote_event_handler] never mentions [action]. *)
Definition gpiote_event_handler (pin : nrf_drv_gpiote_pin_t) (action : nrf_gpiote_polarity_t)
  : itree sdkE unit :=
  button_handler pin.

Definition gpio_init : itree sdkE unit :=
  (* Initialze driver. *)
  err_code <- ITree.trigger nrf_drv_gpiote_init ;;
  APP_ERROR_CHECK err_code ;;
  (* Configure output pin for LED. *)
  let out_config := GPIOTE_CONFIG_OUT_SIMPLE false in
  err_code <- ITree.trigger (nrf_drv_gpiote_out_init LED_1 out_config) ;;
  APP_ERROR_CHECK err_code ;;
  (* Set output pin to turn off LED (cathode is connected to the GPIO on the DK). *)
  ITree.trigger (nrf_drv_gpiote_out_set LED_1) ;;
  (* Make a configuration for input pins. *)
  let in_config := GPIOTE_CONFIG_IN_SENSE_HITOLO true in
  let in_config := set_pull in_config NRF_GPIO_PIN_PULLUP in
  (* Configure input pins for buttons. *)
  err_code <- ITree.trigger (nrf_drv_gpiote_in_init BUTTON_1 in_config gpiote_event_handler_ptr) ;;
  APP_ERROR_CHECK err_code ;;
  err_code <- ITree.trigger (nrf_drv_gpiote_in_init BUTTON_2 in_config gpiote_event_handler_ptr) ;;
  APP_ERROR_CHECK err_code ;;
  (* Enable input pins for buttons. *)
  ITree.trigger (nrf_drv_gpiote_in_event_enable BUTTON_1 true) ;;
  ITree.trigger (nrf_drv_gpiote_in_event_enable BUTTON_2 true).

Definition timer_handler (p_context : option Z) : itree sdkE unit :=
  (* Toggle LED. *)
  ITree.trigger (nrf_drv_gpiote_out_toggle LED_1) ;;
  (* Log execution mode. *)
  prio <- ITree.trigger current_int_priority_get ;;
  if prio =? APP_IRQ_PRIORITY_THREAD
  then ITree.trigger (NRF_LOG_INFO "Timeout handler is executing in thread/main mode.")
  else ITree.trigger (NRF_LOG_INFO "Timeout handler is executing in interrupt handler mode.").

Definition timer_init : itree sdkE unit :=
  err_code <- ITree.trigger app_timer_init ;;
  APP_ERROR_CHECK err_code ;;
  err_code <- ITree.trigger
                (app_timer_create m_led_a_timer_id APP_TIMER_MODE_REPEATED timer_handler_ptr) ;;
  APP_ERROR_CHECK err_code.

Definition lfclk_request : itree sdkE unit :=
  err_code <- ITree.trigger nrf_drv_clock_init ;;
  APP_ERROR_CHECK err_code ;;
  ITree.trigger (nrf_drv_clock_lfclk_request NULL).

Definition log_init : itree sdkE unit :=
  err_code <- ITree.trigger (NRF_LOG_INIT NULL) ;;
  APP_ERROR_CHECK err_code ;;
  ITree.trigger NRF_LOG_DEFAULT_BACKENDS_INIT.

(** [int main(void)]: the loop has no exit, so the tree has no leaf. *)
Definition main : itree sdkE Z :=
  lfclk_request ;;
  log_init ;;
  gpio_init ;;
  timer_init ;;
  ITree.trigger (NRF_LOG_INFO "Scheduler tutorial example started.") ;;
  (* Enter main loop. *)
  ITree.forever (ITree.trigger __WFI).

(** *** Interrupt delivery *)

(** The line each handler logs about the mode it executes in. *)
Definition button_mode_line (prio : Z) : string :=
  if prio =? APP_IRQ_PRIORITY_THREAD
  then "Button handler is executing in thread/main mode."
  else "Button handler is executing in interrupt handler mode.".

Definition timeout_mode_line (prio : Z) : string :=
  if prio =? APP_IRQ_PRIORITY_THREAD
  then "Timeout handler is executing in thread/main mode."
  else "Timeout handler is executing in interrupt handler mode.".

(** Modelled from the spec: the pin event source, which is SDK code.  A
    start event is a press on [BUTTON_1], a stop event a press on [BUTTON_2]
    (section 4.1); each is delivered by calling the handler registered for
    the pin, with the edge the driver reports. *)
Variant blink_event := StartEvent | StopEvent.

Definition pin_of (ev : blink_event) : nrf_drv_gpiote_pin_t :=
  match ev with StartEvent => BUTTON_1 | StopEvent => BUTTON_2 end.

Definition target (ev : blink_event) : BlinkState :=
  match ev with StartEvent => RUNNING | StopEvent => STOPPED end.

(** The events are handled one after the other; a handler that does not
    return ends the sequence. *)
Fixpoint apply_events (fuel : nat) (evs : list (blink_event * nrf_gpiote_polarity_t))
  (w : World) : result unit * World :=
  match evs with
  | [] => (Returned tt, w)
  | (ev, action) :: rest =>
      match run fuel (gpiote_event_handler (pin_of ev) action) w with
      | (Returned _, w') => apply_events fuel rest w'
      | stopped => stopped
      end
  end.

(** Modelled from the spec: the timer service, which is SDK code.  Section
    4.2: the timeout handler is invoked on a tick only while the timer is
    RUNNING; [toggle_active] says that ticks reach [timer_handler]. *)
Definition toggle_active (w : World) : bool :=
  match blink w, timeout_handler w with
  | RUNNING, Some timer_handler_ptr => true
  | _, _ => false
  end.

Definition timer_tick (fuel : nat) (w : World) : result unit * World :=
  if toggle_active w then run fuel (timer_handler NULL) w else (Returned tt, w).

Fixpoint timer_ticks (fuel : nat) (n : nat) (w : World) : result unit * World :=
  match n with
  | O => (Returned tt, w)
  | S n' =>
      match timer_tick fuel w with
      | (Returned _, w') => timer_ticks fuel n' w'
      | stopped => stopped
      end
  end.

(** What the event sequences below maintain: the timer service accepts
    whatever comes, and ticks are wired to [timer_handler]. *)
Definition serving (w : World) : Prop :=
  Forall (fun c => c = NRF_SUCCESS) (answers w) /\
  timeout_handler w = Some timer_handler_ptr.

(** *** Last write wins, as the specification words it *)

(** Section 8: after the events [evs] the timer is in the state the last
    of them asks for, and ticks reach [timer_handler] exactly when the
    last event is a start. *)
Definition last_write_wins (evs : list (blink_event * nrf_gpiote_polarity_t))
  (w' : World) : Prop :=
  blink w' = last (map (fun e => target (fst e)) evs) STOPPED /\
  (toggle_active w' = true <->
   exists earlier action, evs = earlier ++ [(StartEvent, action)]).

(** *** The contract of Button Dispatch, as the specification words it *)

(** Section 4.1, "any other value is ignored - a no-op with no observable
    side effect": nothing was logged, the timer is in the state it was in,
    and no command went to the timer service. *)
Definition no_observable_effect (w w' : World) : Prop :=
  log w' = log w /\ blink w' = blink w /\
  forall calls, history w' = history w ++ calls ->
                existsb is_timer_command calls = false.

(** Section 4.1, "after dispatch, unconditionally": the invocation ends by
    asking for the current priority and logging the line that names the
    mode, and no other line it logged is a mode line. *)
Definition ends_with_mode_line (w w' : World) : Prop :=
  exists lines calls,
    log w' = log w ++ lines ++ [button_mode_line (priority w)] /\
    history w' = history w ++ calls ++
                 [Call current_int_priority_get (priority w);
                  Call (NRF_LOG_INFO (button_mode_line (priority w))) tt] /\
    forall prio, ~ In (button_mode_line prio) lines.

(** *** What [main] does before it idles *)

Definition banner : string := "Scheduler tutorial example started.".

(** The calls of a start-up in which every call succeeds, in source order:
    [lfclk_request], [log_init], [gpio_init], [timer_init]. *)
Definition setup_calls : list call :=
  [ Call nrf_drv_clock_init NRF_SUCCESS;
    Call (nrf_drv_clock_lfclk_request NULL) tt;
    Call (NRF_LOG_INIT NULL) NRF_SUCCESS;
    Call NRF_LOG_DEFAULT_BACKENDS_INIT tt;
    Call nrf_drv_gpiote_init NRF_SUCCESS;
    Call (nrf_drv_gpiote_out_init LED_1 (GPIOTE_CONFIG_OUT_SIMPLE false)) NRF_SUCCESS;
    Call (nrf_drv_gpiote_out_set LED_1) tt;
    Call (nrf_drv_gpiote_in_init BUTTON_1
            (set_pull (GPIOTE_CONFIG_IN_SENSE_HITOLO true) NRF_GPIO_PIN_PULLUP)
            gpiote_event_handler_ptr) NRF_SUCCESS;
    Call (nrf_drv_gpiote_in_init BUTTON_2
            (set_pull (GPIOTE_CONFIG_IN_SENSE_HITOLO true) NRF_GPIO_PIN_PULLUP)
            gpiote_event_handler_ptr) NRF_SUCCESS;
    Call (nrf_drv_gpiote_in_event_enable BUTTON_1 true) tt;
    Call (nrf_drv_gpiote_in_event_enable BUTTON_2 true) tt;
    Call app_timer_init NRF_SUCCESS;
    Call (app_timer_create m_led_a_timer_id APP_TIMER_MODE_REPEATED timer_handler_ptr)
      NRF_SUCCESS ].

(** * Properties *)

(** ** Fuel *)

(** A run that has come to an end is not changed by more fuel. *)
Lemma run_more {R : Type} (n k : nat) :
  forall (t : itree sdkE R) (w w' : World) (o : result R),
    run n t w = (o, w') -> o <> Running -> run (n + k) t w = (o, w').
Proof.
  induction n as [|n IH]; intros t w w' o Hrun Ho.
  - simpl in Hrun. inversion Hrun; subst. contradiction.
  - simpl in *. destruct (observe t) as [r|t'|X e kont].
    + exact Hrun.
    + apply IH; assumption.
    + destruct (sdk_call e w) as [w1 [a|c]].
      * apply IH; assumption.
      * exact Hrun.
Qed.

Lemma run_ge {R : Type} (n m : nat) (t : itree sdkE R) (w w' : World) (o : result R) :
  run n t w = (o, w') -> o <> Running -> (n <= m)%nat -> run m t w = (o, w').
Proof.
  intros Hrun Ho Hle. replace m with (n + (m - n))%nat by lia.
  now apply run_more.
Qed.

Lemma run_steps {R : Type} (n m : nat) :
  forall (t : itree sdkE R) (w : World),
    run (n + m) t w =
    match steps n t w with
    | (inl t', w') => run m t' w'
    | (inr o, w') => (o, w')
    end.
Proof.
  induction n as [|n IH]; intros t w; [reflexivity|].
  simpl. destruct (observe t) as [r|t'|X e kont]; [reflexivity|apply IH|].
  destruct (sdk_call e w) as [w1 [a|c]]; [apply IH|reflexivity].
Qed.

Lemma run_after_ret {A R : Type} (n : nat) (a : A) (f : A -> itree sdkE R) (w : World) :
  run n (ITree.subst f (Ret a)) w = run n (f a) w.
Proof. destruct n; reflexivity. Qed.

Lemma run_if {R : Type} (n : nat) (b : bool) (t1 t2 : itree sdkE R) (w : World) :
  run n (if b then t1 else t2) w = if b then run n t1 w else run n t2 w.
Proof. destruct b; reflexivity. Qed.

(** Symbolic execution: the run in the goal is replaced by what it
    evaluates to. *)
Ltac run_eval :=
  lazymatch goal with
  | |- context [run ?n ?t ?w] =>
      let L := constr:(run n t w) in
      let R := eval cbn in L in
      let E := fresh "E" in
      assert (E : L = R) by (vm_compute; reflexivity);
      rewrite E; clear E
  end.

(** The same for the first [n] nodes of a run with fuel [n + m]. *)
Ltac run_to n :=
  lazymatch goal with
  | |- context [run (n + ?m) ?t ?w] =>
      rewrite (run_steps n m t w);
      let L := constr:(steps n t w) in
      let R := eval cbn in L in
      let E := fresh "E" in
      assert (E : L = R) by (vm_compute; reflexivity);
      rewrite E; clear E; cbv beta iota; rewrite ?run_after_ret; cbv beta
  end.

(** ** The idle loop *)

Lemma run_idle_step (n : nat) (w : World) :
  run (S (S n)) idle w = run n idle (record (Call __WFI tt) w).
Proof. reflexivity. Qed.

Lemma same_board_refl (w : World) : same_board w w.
Proof. unfold same_board; repeat split. Qed.

Lemma same_board_record (c : call) (w w' : World) :
  same_board (record c w) w' -> same_board w w'.
Proof. unfold same_board; simpl; trivial. Qed.

(** The idle loop never ends and does nothing but wait: one [__WFI] for
    every two units of fuel, the other one being the jump back. *)
Lemma run_idle (n : nat) :
  forall w : World,
    (exists w', run n idle w = (Running, w') /\ same_board w w' /\
                history w' = history w ++ repeat (Call __WFI tt) (Nat.div2 (S n))) /\
    (exists w', run (S n) idle w = (Running, w') /\ same_board w w' /\
                history w' = history w ++ repeat (Call __WFI tt) (Nat.div2 (S (S n)))).
Proof.
  induction n as [|n IH]; intros w.
  - split.
    + exists w. simpl. rewrite app_nil_r.
      split; [reflexivity|]. split; [apply same_board_refl | reflexivity].
    + exists (record (Call __WFI tt) w).
      split; [reflexivity|]. split; [|reflexivity].
      unfold same_board; simpl; repeat split.
  - split; [apply IH|].
    rewrite run_idle_step.
    destruct (IH (record (Call __WFI tt) w)) as [(w' & Hrun & Hsame & Hhist) _].
    exists w'. split; [exact Hrun|]. split; [eapply same_board_record; eassumption|].
    rewrite Hhist. simpl history. rewrite <- app_assoc. reflexivity.
Qed.

Lemma run_idle_running (n : nat) (w : World) :
  exists w', run n idle w = (Running, w') /\ same_board w w' /\
             history w' = history w ++ repeat (Call __WFI tt) (Nat.div2 (S n)).
Proof. apply run_idle. Qed.

(** ** Start-up *)

(** Case analysis on what the SDK answers to the next fallible call, given
    that it is a success. *)
Ltac next_accepted H :=
  match type of H with
  | Forall _ (firstn _ ?l) =>
      destruct l as [|? l];
      [ clear H
      | rewrite firstn_cons in H; apply Forall_cons_iff in H; destruct H as [-> H] ]
  end.

Lemma main_setup_ok (k : nat) (w : World) :
  accepts 8 w ->
  exists w',
    run (14 + k) main w = (Running, w') /\
    log w' = log w ++ [banner] /\
    history w' = history w ++ setup_calls ++
                 Call (NRF_LOG_INFO banner) tt :: repeat (Call __WFI tt) (Nat.div2 (S k)) /\
    answers w' = skipn 8 (answers w) /\
    priority w' = priority w /\
    level w' LED_1 = true /\
    timeout_handler w' = Some timer_handler_ptr /\
    blink w' = blink w /\ period w' = period w.
Proof.
  destruct w as [ans prio lg lev inh ine th bl per hist].
  unfold accepts; simpl answers. intros H.
  do 8 (try next_accepted H).
  all: run_eval;
    lazymatch goal with
    | |- context [run ?n _ ?W] =>
        destruct (run_idle_running n W) as (w' & Hrun & Hsame & Hhist)
    end;
    exists w'; (split; [rewrite run_after_ret; exact Hrun|]);
    unfold same_board in Hsame; simpl in Hsame;
    destruct Hsame as (Ha & Hp & Hl & Hlev & _ & _ & Ht & Hb & Hper);
    rewrite Ha, Hp, Hl, Hlev, Ht, Hb, Hper, Hhist; simpl;
    rewrite <- !app_assoc; unfold upd, banner; rewrite Z.eqb_refl;
    repeat split.
Qed.


(** A start-up in which some call fails: [main] is stopped with the status
    of that call, which is the last call made; the banner is not logged. *)
Ltac setup_failed :=
  right; run_eval; do 3 eexists;
  refine (conj _ (conj eq_refl _)); [discriminate|];
  simpl; rewrite <- ?app_assoc; split; [reflexivity|];
  split; [simpl; repeat split|reflexivity].

Ltac setup_split n :=
  lazymatch n with
  | O => left; unfold accepts; simpl; repeat constructor
  | S ?n' =>
      match goal with
      | ans : list ret_code_t |- _ =>
          destruct ans as [|c ans];
          [ left; unfold accepts; simpl; repeat constructor
          | destruct c as [|c|c]; [setup_split n' | setup_failed | setup_failed] ]
      end
  end.

Lemma main_setup_cases (k : nat) (w : World) :
  accepts 8 w \/
  exists code w' tr,
    code <> NRF_SUCCESS /\
    run (14 + k) main w = (Halted code, w') /\
    history w' = history w ++ tr /\ stops_at code tr /\ log w' = log w.
Proof.
  destruct w as [ans prio lg lev inh ine th bl per hist].
  setup_split 8%nat.
Qed.

(** ** The button handler, case by case *)

Hypothesis buttons_distinct : BUTTON_1 <> BUTTON_2.

(** The end of both handlers: ask for the priority, log the mode. *)
Ltac log_mode :=
  rewrite run_if; unfold button_mode_line, timeout_mode_line; simpl priority;
  match goal with
  | |- context [?p =? APP_IRQ_PRIORITY_THREAD] => destruct (p =? APP_IRQ_PRIORITY_THREAD)
  end; run_eval.

Ltac effect_done :=
  eexists; (split; [reflexivity|]); unfold effect; simpl;
  rewrite <- ?app_assoc; repeat split.

Lemma button_start_ok (k : nat) (w : World) :
  next_status w = NRF_SUCCESS ->
  exists w',
    run (3 + (2 + k)) (button_handler BUTTON_1) w = (Returned tt, w') /\
    effect w w'
      ["Start toggling LED 1."; button_mode_line (priority w)]
      [Call (NRF_LOG_INFO "Start toggling LED 1.") tt;
       Call (app_timer_start m_led_a_timer_id (APP_TIMER_TICKS 500) NULL) NRF_SUCCESS;
       Call current_int_priority_get (priority w);
       Call (NRF_LOG_INFO (button_mode_line (priority w))) tt]
      RUNNING (Some (APP_TIMER_TICKS 500)) (tl (answers w)).
Proof.
  destruct w as [ans prio lg lev inh ine th bl per hist].
  unfold button_handler. rewrite Z.eqb_refl.
  unfold next_status; simpl answers. intros Hc.
  destruct ans as [|c ans]; [|subst c];
    run_to 3%nat; log_mode; effect_done.
Qed.

Lemma button_start_fail (k : nat) (w : World) :
  next_status w <> NRF_SUCCESS ->
  exists w',
    run (3 + k) (button_handler BUTTON_1) w = (Halted (next_status w), w') /\
    effect w w'
      ["Start toggling LED 1."]
      [Call (NRF_LOG_INFO "Start toggling LED 1.") tt;
       Call (app_timer_start m_led_a_timer_id (APP_TIMER_TICKS 500) NULL) (next_status w)]
      (blink w) (period w) (tl (answers w)).
Proof.
  destruct w as [ans prio lg lev inh ine th bl per hist].
  unfold button_handler. rewrite Z.eqb_refl.
  unfold next_status; simpl answers. intros Hc.
  destruct ans as [|c ans]; [contradiction|].
  destruct c as [|c|c]; [contradiction| |]; run_eval; effect_done.
Qed.

Lemma button_stop_ok (k : nat) (w : World) :
  next_status w = NRF_SUCCESS ->
  exists w',
    run (3 + (2 + k)) (button_handler BUTTON_2) w = (Returned tt, w') /\
    effect w w'
      ["Stop toggling LED 1."; button_mode_line (priority w)]
      [Call (NRF_LOG_INFO "Stop toggling LED 1.") tt;
       Call (app_timer_stop m_led_a_timer_id) NRF_SUCCESS;
       Call current_int_priority_get (priority w);
       Call (NRF_LOG_INFO (button_mode_line (priority w))) tt]
      STOPPED (period w) (tl (answers w)).
Proof.
  destruct w as [ans prio lg lev inh ine th bl per hist].
  unfold button_handler.
  rewrite (proj2 (Z.eqb_neq BUTTON_2 BUTTON_1)) by auto. rewrite Z.eqb_refl.
  unfold next_status; simpl answers. intros Hc.
  destruct ans as [|c ans]; [|subst c];
    run_to 3%nat; log_mode; effect_done.
Qed.

Lemma button_stop_fail (k : nat) (w : World) :
  next_status w <> NRF_SUCCESS ->
  exists w',
    run (3 + k) (button_handler BUTTON_2) w = (Halted (next_status w), w') /\
    effect w w'
      ["Stop toggling LED 1."]
      [Call (NRF_LOG_INFO "Stop toggling LED 1.") tt;
       Call (app_timer_stop m_led_a_timer_id) (next_status w)]
      (blink w) (period w) (tl (answers w)).
Proof.
  destruct w as [ans prio lg lev inh ine th bl per hist].
  unfold button_handler.
  rewrite (proj2 (Z.eqb_neq BUTTON_2 BUTTON_1)) by auto. rewrite Z.eqb_refl.
  unfold next_status; simpl answers. intros Hc.
  destruct ans as [|c ans]; [contradiction|].
  destruct c as [|c|c]; [contradiction| |]; run_eval; effect_done.
Qed.

Lemma button_other (k : nat) (pin : nrf_drv_gpiote_pin_t) (w : World) :
  pin <> BUTTON_1 -> pin <> BUTTON_2 ->
  exists w',
    run (1 + (2 + k)) (button_handler pin) w = (Returned tt, w') /\
    effect w w'
      [button_mode_line (priority w)]
      [Call current_int_priority_get (priority w);
       Call (NRF_LOG_INFO (button_mode_line (priority w))) tt]
      (blink w) (period w) (answers w).
Proof.
  destruct w as [ans prio lg lev inh ine th bl per hist].
  intros H1 H2. unfold button_handler.
  rewrite (proj2 (Z.eqb_neq pin BUTTON_1)), (proj2 (Z.eqb_neq pin BUTTON_2)) by auto.
  run_to 1%nat; log_mode; effect_done.
Qed.

(** ** The timeout handler *)

Lemma timer_handler_runs (k : nat) (p_context : option Z) (w : World) :
  exists w',
    run (2 + (2 + k)) (timer_handler p_context) w = (Returned tt, w') /\
    log w' = log w ++ [timeout_mode_line (priority w)] /\
    history w' = history w ++
      [Call (nrf_drv_gpiote_out_toggle LED_1) tt;
       Call current_int_priority_get (priority w);
       Call (NRF_LOG_INFO (timeout_mode_line (priority w))) tt] /\
    level w' = upd (level w) LED_1 (negb (level w LED_1)) /\
    blink w' = blink w /\ period w' = period w /\ answers w' = answers w /\
    priority w' = priority w /\ timeout_handler w' = timeout_handler w.
Proof.
  destruct w as [ans prio lg lev inh ine th bl per hist].
  unfold timer_handler.
  run_to 2%nat; log_mode;
    (eexists; (split; [reflexivity|]); simpl; rewrite <- ?app_assoc; repeat split).
Qed.



(** ** Button Dispatch *)

Lemma fuel_split (n fuel : nat) : (n <= fuel)%nat -> fuel = (n + (fuel - n))%nat.
Proof. lia. Qed.

(** C1: every invocation of [button_handler] with [BUTTON_1] logs
    "Start toggling LED 1." and then starts the timer with the ticks of 500
    milliseconds; with [BUTTON_2] it logs "Stop toggling LED 1." and then
    stops the timer.  Both hold whatever status the timer service reports. *)
Theorem button_handler_commands (fuel : nat) (w : World) :
  (5 <= fuel)%nat ->
  (exists status calls lines,
      history (snd (run fuel (button_handler BUTTON_1) w)) =
        history w ++
        Call (NRF_LOG_INFO "Start toggling LED 1.") tt ::
        Call (app_timer_start m_led_a_timer_id (APP_TIMER_TICKS 500) NULL) status :: calls /\
      log (snd (run fuel (button_handler BUTTON_1) w)) =
        log w ++ "Start toggling LED 1." :: lines) /\
  (exists status calls lines,
      history (snd (run fuel (button_handler BUTTON_2) w)) =
        history w ++
        Call (NRF_LOG_INFO "Stop toggling LED 1.") tt ::
        Call (app_timer_stop m_led_a_timer_id) status :: calls /\
      log (snd (run fuel (button_handler BUTTON_2) w)) =
        log w ++ "Stop toggling LED 1." :: lines).
Proof.
  intros Hfuel. rewrite (fuel_split 5 fuel Hfuel).
  set (k := (fuel - 5)%nat).
  destruct (Z.eq_dec (next_status w) NRF_SUCCESS) as [Hok|Hko]; split.
  - destruct (button_start_ok k w Hok) as (w' & Hrun & Hlog & Hhist & _).
    change (3 + (2 + k))%nat with (5 + k)%nat in Hrun. rewrite Hrun. simpl snd.
    rewrite Hlog, Hhist. do 3 eexists. split; reflexivity.
  - destruct (button_stop_ok k w Hok) as (w' & Hrun & Hlog & Hhist & _).
    change (3 + (2 + k))%nat with (5 + k)%nat in Hrun. rewrite Hrun. simpl snd.
    rewrite Hlog, Hhist. do 3 eexists. split; reflexivity.
  - destruct (button_start_fail (2 + k) w Hko) as (w' & Hrun & Hlog & Hhist & _).
    change (3 + (2 + k))%nat with (5 + k)%nat in Hrun. rewrite Hrun. simpl snd.
    rewrite Hlog, Hhist. do 3 eexists. split; reflexivity.
  - destruct (button_stop_fail (2 + k) w Hko) as (w' & Hrun & Hlog & Hhist & _).
    change (3 + (2 + k))%nat with (5 + k)%nat in Hrun. rewrite Hrun. simpl snd.
    rewrite Hlog, Hhist. do 3 eexists. split; reflexivity.
Qed.

(** C4, as amended: for a pin that is neither [BUTTON_1] nor [BUTTON_2],
    [button_handler] returns having sent no command to the timer service
    and with the timer state, its period and the pending answers untouched;
    its only output is the one line that names the execution mode. *)
Theorem button_handler_other_pin (fuel : nat) (pin : nrf_drv_gpiote_pin_t) (w : World) :
  (3 <= fuel)%nat -> pin <> BUTTON_1 -> pin <> BUTTON_2 ->
  exists w',
    run fuel (button_handler pin) w = (Returned tt, w') /\
    log w' = log w ++ [button_mode_line (priority w)] /\
    history w' = history w ++
                 [Call current_int_priority_get (priority w);
                  Call (NRF_LOG_INFO (button_mode_line (priority w))) tt] /\
    blink w' = blink w /\ period w' = period w /\ answers w' = answers w.
Proof.
  intros Hfuel H1 H2. rewrite (fuel_split 3 fuel Hfuel).
  destruct (button_other (fuel - 3) pin w H1 H2)
    as (w' & Hrun & Hlog & Hhist & Hb & Hp & Ha & _).
  exists w'. repeat split; assumption.
Qed.

Lemma mode_line_not_start (prio : Z) :
  button_mode_line prio <> "Start toggling LED 1." /\
  button_mode_line prio <> "Stop toggling LED 1.".
Proof.
  unfold button_mode_line.
  destruct (prio =? APP_IRQ_PRIORITY_THREAD); split; discriminate.
Qed.

(** C5, as amended: an invocation of [button_handler] in which the timer
    service accepts the command, if the pin asks for one, returns, and it
    ends by reading the current priority and logging exactly one line that
    names the mode: the thread/main line when the priority is
    [APP_IRQ_PRIORITY_THREAD], the interrupt line otherwise. *)
Theorem button_handler_logs_mode (fuel : nat) (pin : nrf_drv_gpiote_pin_t) (w : World) :
  (5 <= fuel)%nat ->
  (pin = BUTTON_1 \/ pin = BUTTON_2 -> next_status w = NRF_SUCCESS) ->
  fst (run fuel (button_handler pin) w) = Returned tt /\
  ends_with_mode_line w (snd (run fuel (button_handler pin) w)) /\
  button_mode_line (priority w) =
    (if priority w =? APP_IRQ_PRIORITY_THREAD
     then "Button handler is executing in thread/main mode."
     else "Button handler is executing in interrupt handler mode.").
Proof.
  intros Hfuel Hok. rewrite (fuel_split 5 fuel Hfuel).
  set (k := (fuel - 5)%nat).
  destruct (Z.eq_dec pin BUTTON_1) as [->|H1]; [|destruct (Z.eq_dec pin BUTTON_2) as [->|H2]].
  - destruct (button_start_ok k w) as (w' & Hrun & Hlog & Hhist & _); [auto|].
    change (3 + (2 + k))%nat with (5 + k)%nat in Hrun. rewrite Hrun. simpl.
    split; [reflexivity|]. split; [|reflexivity].
    exists ["Start toggling LED 1."],
      [Call (NRF_LOG_INFO "Start toggling LED 1.") tt;
       Call (app_timer_start m_led_a_timer_id (APP_TIMER_TICKS 500) NULL) NRF_SUCCESS].
    rewrite Hlog, Hhist. repeat split.
    intros prio [H|[]]. destruct (mode_line_not_start prio) as [N1 N2].
    symmetry in H. contradiction.
  - destruct (button_stop_ok k w) as (w' & Hrun & Hlog & Hhist & _); [auto|].
    change (3 + (2 + k))%nat with (5 + k)%nat in Hrun. rewrite Hrun. simpl.
    split; [reflexivity|]. split; [|reflexivity].
    exists ["Stop toggling LED 1."],
      [Call (NRF_LOG_INFO "Stop toggling LED 1.") tt;
       Call (app_timer_stop m_led_a_timer_id) NRF_SUCCESS].
    rewrite Hlog, Hhist. repeat split.
    intros prio [H|[]]. destruct (mode_line_not_start prio) as [N1 N2].
    symmetry in H. contradiction.
  - destruct (button_other (2 + k) pin w H1 H2) as (w' & Hrun & Hlog & Hhist & _).
    change (1 + (2 + (2 + k)))%nat with (5 + k)%nat in Hrun. rewrite Hrun. simpl.
    split; [reflexivity|]. split; [|reflexivity].
    exists [], []. rewrite Hlog, Hhist. repeat split. intros prio [].
Qed.

(** C10: [gpiote_event_handler] does not look at [action]: for a given pin
    it is the same program, namely [button_handler pin], whatever the edge
    reported, and so every run of it ends the same way in the same world. *)
Theorem gpiote_event_handler_ignores_action
  (pin : nrf_drv_gpiote_pin_t) (a1 a2 : nrf_gpiote_polarity_t) :
  gpiote_event_handler pin a1 = button_handler pin /\
  gpiote_event_handler pin a1 = gpiote_event_handler pin a2 /\
  forall (fuel : nat) (w : World),
    run fuel (gpiote_event_handler pin a1) w = run fuel (gpiote_event_handler pin a2) w.
Proof. repeat split. Qed.

(** ** The timeout handler *)

(** C6: every invocation of [timer_handler] inverts the level of the LED
    pin, leaves the other pins alone, and then logs exactly one line: the
    thread/main line when the priority is [APP_IRQ_PRIORITY_THREAD], the
    interrupt line otherwise. *)
Theorem timer_handler_toggles_and_logs (fuel : nat) (p_context : option Z) (w : World) :
  (4 <= fuel)%nat ->
  exists w',
    run fuel (timer_handler p_context) w = (Returned tt, w') /\
    level w' LED_1 = negb (level w LED_1) /\
    (forall pin, pin <> LED_1 -> level w' pin = level w pin) /\
    log w' = log w ++
      [if priority w =? APP_IRQ_PRIORITY_THREAD
       then "Timeout handler is executing in thread/main mode."
       else "Timeout handler is executing in interrupt handler mode."] /\
    history w' = history w ++
      [Call (nrf_drv_gpiote_out_toggle LED_1) tt;
       Call current_int_priority_get (priority w);
       Call (NRF_LOG_INFO (timeout_mode_line (priority w))) tt].
Proof.
  intros Hfuel. rewrite (fuel_split 4 fuel Hfuel).
  destruct (timer_handler_runs (fuel - 4) p_context w)
    as (w' & Hrun & Hlog & Hhist & Hlev & _).
  exists w'. split; [exact Hrun|]. rewrite Hlev. unfold upd.
  split; [now rewrite Z.eqb_refl|].
  split; [intros pin Hpin; now rewrite (proj2 (Z.eqb_neq pin LED_1))|].
  split; assumption.
Qed.

(** ** Fail-fast *)

Lemma stops_at_split (code : ret_code_t) (tr : list call) :
  stops_at code tr ->
  forall pre x post c,
    tr = pre ++ x :: post -> status_of x = Some c -> c <> NRF_SUCCESS ->
    post = [] /\ c = code.
Proof.
  induction tr as [|y rest IH]; simpl; [contradiction|].
  intros Hs pre x post c Heq Hst Hne.
  destruct rest as [|z rest'].
  - destruct pre as [|p pre'].
    + injection Heq as <- <-. rewrite Hst in Hs. injection Hs as ->. auto.
    + injection Heq as _ Heq. destruct pre'; discriminate.
  - destruct Hs as [Hy Hs]. destruct pre as [|p pre'].
    + injection Heq as <- _. unfold succeeded in Hy. rewrite Hst in Hy.
      apply Z.eqb_eq in Hy. contradiction.
    + injection Heq as _ Heq. exact (IH Hs pre' x post c Heq Hst Hne).
Qed.

Lemma fail_fast_halted {R : Type} (w w' : World) (code : ret_code_t) (tr : list call) :
  history w' = history w ++ tr -> stops_at code tr ->
  fail_fast (R := R) w (Halted code, w').
Proof.
  intros Hhist Hs pre post x c Heq Hst Hne. simpl in *.
  rewrite Hhist in Heq. apply app_inv_head in Heq.
  destruct (stops_at_split code tr Hs pre x post c Heq Hst Hne) as [-> ->]. auto.
Qed.

Lemma fail_fast_clean {R : Type} (w : World) (r : result R * World) (tr : list call) :
  history (snd r) = history w ++ tr -> forallb succeeded tr = true ->
  fail_fast w r.
Proof.
  intros Hhist Hall pre post x c Heq Hst Hne. exfalso.
  rewrite Hhist in Heq. apply app_inv_head in Heq.
  rewrite forallb_forall in Hall.
  assert (Hx : succeeded x = true) by (apply Hall; rewrite Heq; apply in_elt).
  unfold succeeded in Hx. rewrite Hst in Hx. apply Z.eqb_eq in Hx. contradiction.
Qed.

Lemma forallb_repeat {A : Type} (f : A -> bool) (a : A) (n : nat) :
  f a = true -> forallb f (repeat a n) = true.
Proof. intros Ha. induction n; simpl; [reflexivity|now rewrite Ha]. Qed.

Lemma existsb_repeat {A : Type} (f : A -> bool) (a : A) (n : nat) :
  f a = false -> existsb f (repeat a n) = false.
Proof. intros Ha. induction n; simpl; [reflexivity|now rewrite Ha]. Qed.

Lemma button_handler_fail_fast (k : nat) (pin : nrf_drv_gpiote_pin_t) (w : World) :
  fail_fast w (run (5 + k) (button_handler pin) w).
Proof.
  destruct (Z.eq_dec pin BUTTON_1) as [->|H1]; [|destruct (Z.eq_dec pin BUTTON_2) as [->|H2]];
    [destruct (Z.eq_dec (next_status w) NRF_SUCCESS) as [Hok|Hko]..|].
  - destruct (button_start_ok k w Hok) as (w' & Hrun & _ & Hhist & _).
    change (3 + (2 + k))%nat with (5 + k)%nat in Hrun. rewrite Hrun.
    eapply fail_fast_clean; [exact Hhist|reflexivity].
  - destruct (button_start_fail (2 + k) w Hko) as (w' & Hrun & _ & Hhist & _).
    change (3 + (2 + k))%nat with (5 + k)%nat in Hrun. rewrite Hrun.
    eapply fail_fast_halted; [exact Hhist|]. simpl. auto.
  - destruct (button_stop_ok k w Hok) as (w' & Hrun & _ & Hhist & _).
    change (3 + (2 + k))%nat with (5 + k)%nat in Hrun. rewrite Hrun.
    eapply fail_fast_clean; [exact Hhist|reflexivity].
  - destruct (button_stop_fail (2 + k) w Hko) as (w' & Hrun & _ & Hhist & _).
    change (3 + (2 + k))%nat with (5 + k)%nat in Hrun. rewrite Hrun.
    eapply fail_fast_halted; [exact Hhist|]. simpl. auto.
  - destruct (button_other (2 + k) pin w H1 H2) as (w' & Hrun & _ & Hhist & _).
    change (1 + (2 + (2 + k)))%nat with (5 + k)%nat in Hrun. rewrite Hrun.
    eapply fail_fast_clean; [exact Hhist|reflexivity].
Qed.

Lemma main_fail_fast (k : nat) (w : World) : fail_fast w (run (14 + k) main w).
Proof.
  destruct (main_setup_cases k w) as [Hok|(code & w' & tr & _ & Hrun & Hhist & Hs & _)].
  - destruct (main_setup_ok k w Hok) as (w' & Hrun & _ & Hhist & _).
    rewrite Hrun. eapply fail_fast_clean; [exact Hhist|].
    rewrite forallb_app. simpl. now rewrite forallb_repeat.
  - rewrite Hrun. eapply fail_fast_halted; eassumption.
Qed.

(** C8: a non-success status reported by any call of the clock, the
    logger, the GPIOTE driver or the timer service, during start-up or
    inside the button handler, stops the program on the spot: the failing
    call is the last call the program makes (nothing is retried, nothing is
    cleaned up) and the run ends in [app_error_handler] with that status.
    The timeout handler makes no call that reports a status. *)
Theorem failures_are_fatal (fuel : nat) (w : World) :
  (14 <= fuel)%nat ->
  fail_fast w (run fuel main w) /\
  (forall pin action, fail_fast w (run fuel (gpiote_event_handler pin action) w)) /\
  (forall p_context, fail_fast w (run fuel (timer_handler p_context) w)).
Proof.
  intros Hfuel. split; [|split].
  - rewrite (fuel_split 14 fuel Hfuel). apply main_fail_fast.
  - intros pin action. unfold gpiote_event_handler.
    rewrite (fuel_split 5 fuel) by lia. apply button_handler_fail_fast.
  - intros p_context. rewrite (fuel_split 4 fuel) by lia.
    destruct (timer_handler_runs (fuel - 4) p_context w) as (w' & Hrun & _ & Hhist & _).
    change (2 + (2 + (fuel - 4)))%nat with (4 + (fuel - 4))%nat in Hrun. rewrite Hrun.
    eapply fail_fast_clean; [exact Hhist|reflexivity].
Qed.

(** ** [main] *)

(** C9: [main] never returns, whatever the SDK answers; and when start-up
    goes through, it logs the banner "Scheduler tutorial example started."
    as its only line and from then on does nothing but [__WFI], for as long
    as it is run. *)
Theorem main_never_returns :
  (forall (fuel : nat) (w : World) (r : Z), fst (run fuel main w) <> Returned r) /\
  (forall (fuel : nat) (w : World),
      (14 <= fuel)%nat -> accepts 8 w ->
      exists w',
        run fuel main w = (Running, w') /\
        log w' = log w ++ ["Scheduler tutorial example started."] /\
        history w' = history w ++ setup_calls ++
                     Call (NRF_LOG_INFO "Scheduler tutorial example started.") tt ::
                     repeat (Call __WFI tt) (Nat.div2 (S (fuel - 14)))).
Proof.
  split.
  - intros fuel w r Hret.
    destruct (run fuel main w) as [o w1] eqn:Hrun. simpl in Hret. subst o.
    assert (Hmore : run (fuel + 14) main w = (Returned r, w1))
      by (apply run_more; [exact Hrun|discriminate]).
    rewrite Nat.add_comm in Hmore.
    destruct (main_setup_cases fuel w) as [Hok|(code & w' & tr & _ & Hhalt & _)].
    + destruct (main_setup_ok fuel w Hok) as (w' & Hidle & _). congruence.
    + congruence.
  - intros fuel w Hfuel Hok.
    destruct (main_setup_ok (fuel - 14) w Hok) as (w' & Hrun & Hlog & Hhist & _).
    exists w'. split; [|split; assumption].
    rewrite (fuel_split 14 fuel Hfuel). exact Hrun.
Qed.

(** ** Blink Control *)

Lemma timer_ticks_idle (fuel n : nat) (w : World) :
  toggle_active w = false -> timer_ticks fuel n w = (Returned tt, w).
Proof.
  intros Hoff. induction n as [|n IH]; simpl; [reflexivity|].
  unfold timer_tick. rewrite Hoff. exact IH.
Qed.

(** C7: after a start-up from power-on in which every call succeeds, and
    before any button event, the timer is STOPPED, the LED pin is high
    (the LED, whose cathode is on the pin, is off), timer ticks do not
    reach [timer_handler], and no pin has been toggled. *)
Theorem power_on_state (fuel : nat) (thread_prio : Z) (ans : list ret_code_t) :
  (14 <= fuel)%nat -> accepts 8 (power_on thread_prio ans) ->
  exists w,
    run fuel main (power_on thread_prio ans) = (Running, w) /\
    blink w = STOPPED /\
    level w LED_1 = true /\
    toggle_active w = false /\
    (forall f n, timer_ticks f n w = (Returned tt, w)) /\
    existsb is_toggle (history w) = false.
Proof.
  intros Hfuel Hok.
  destruct (main_setup_ok (fuel - 14) (power_on thread_prio ans) Hok)
    as (w & Hrun & _ & Hhist & _ & _ & Hlev & _ & Hb & _).
  simpl in Hb.
  assert (Hoff : toggle_active w = false) by (unfold toggle_active; now rewrite Hb).
  exists w. split; [rewrite (fuel_split 14 fuel Hfuel); exact Hrun|].
  repeat split; auto using timer_ticks_idle.
  rewrite Hhist. change (history (power_on thread_prio ans)) with (@nil call).
  rewrite app_nil_l, existsb_app. simpl. now rewrite existsb_repeat.
Qed.

Lemma serving_next (w : World) : serving w -> next_status w = NRF_SUCCESS.
Proof.
  intros [Hall _]. unfold next_status.
  destruct (answers w) as [|c l]; [reflexivity|now inversion Hall].
Qed.

Lemma accepts_head (n : nat) (w : World) :
  accepts (S n) w -> next_status w = NRF_SUCCESS.
Proof.
  unfold accepts, next_status. intros Hall.
  destruct (answers w) as [|c l]; [reflexivity|now inversion Hall].
Qed.

Lemma accepts_tail (n : nat) (w w' : World) :
  accepts (S n) w -> answers w' = tl (answers w) -> accepts n w'.
Proof.
  unfold accepts. intros Hall Ha. rewrite Ha.
  destruct (answers w) as [|c l]; simpl in *.
  - destruct n; constructor.
  - now inversion Hall.
Qed.

Lemma accepts_split (m n : nat) (l : list ret_code_t) :
  Forall (fun c => c = NRF_SUCCESS) (firstn (m + n) l) ->
  Forall (fun c => c = NRF_SUCCESS) (firstn m l) /\
  Forall (fun c => c = NRF_SUCCESS) (firstn n (skipn m l)).
Proof.
  revert l. induction m as [|m IH]; intros l Hall.
  - split; [constructor|exact Hall].
  - destruct l as [|c l]; simpl in *.
    + split; [constructor|]. destruct n; constructor.
    + inversion Hall as [|c' l' Hc Hall']; subst.
      destruct (IH l Hall') as [Hm Hn].
      split; [constructor; auto|exact Hn].
Qed.

Lemma event_step (k : nat) (ev : blink_event) (action : nrf_gpiote_polarity_t) (w : World) :
  next_status w = NRF_SUCCESS ->
  exists w',
    run (5 + k) (gpiote_event_handler (pin_of ev) action) w = (Returned tt, w') /\
    answers w' = tl (answers w) /\
    timeout_handler w' = timeout_handler w /\ blink w' = target ev.
Proof.
  intros Hok. unfold gpiote_event_handler.
  destruct ev; simpl pin_of;
    [ destruct (button_start_ok k w Hok)
        as (w' & Hrun & _ & _ & Hb & _ & Ha & _ & _ & _ & _ & Ht)
    | destruct (button_stop_ok k w Hok)
        as (w' & Hrun & _ & _ & Hb & _ & Ha & _ & _ & _ & _ & Ht) ];
    exists w'; auto.
Qed.

Lemma last_cons_default {A : Type} (a d : A) (l : list A) : last (a :: l) d = last l a.
Proof.
  revert a d. induction l as [|b l IH]; intros a d; [reflexivity|].
  change (last (a :: b :: l) d) with (last (b :: l) d). now rewrite !IH.
Qed.

Lemma apply_events_accepted (k : nat) (evs : list (blink_event * nrf_gpiote_polarity_t)) :
  forall w : World,
    accepts (List.length evs) w ->
    exists w',
      apply_events (5 + k) evs w = (Returned tt, w') /\
      timeout_handler w' = timeout_handler w /\
      blink w' = last (map (fun e => target (fst e)) evs) (blink w).
Proof.
  induction evs as [|[ev action] evs IH]; intros w Hacc.
  - exists w. auto.
  - simpl List.length in Hacc.
    destruct (event_step k ev action w (accepts_head _ w Hacc))
      as (w1 & Hrun & Ha1 & Ht1 & Hb1).
    destruct (IH w1 (accepts_tail _ w w1 Hacc Ha1)) as (w' & Happ & Ht' & Hb').
    exists w'. split; [|split].
    + cbn [apply_events]. rewrite Hrun. exact Happ.
    + congruence.
    + rewrite Hb', Hb1. cbn [map fst]. now rewrite last_cons_default.
Qed.

Lemma last_target_running (evs : list (blink_event * nrf_gpiote_polarity_t)) :
  last (map (fun e => target (fst e)) evs) STOPPED = RUNNING <->
  exists earlier action, evs = earlier ++ [(StartEvent, action)].
Proof.
  destruct evs as [|e evs'] using rev_ind.
  - simpl. split; [discriminate|]. intros (earlier & action & H).
    destruct earlier; discriminate.
  - rewrite map_app. simpl map. rewrite last_last.
    destruct e as [[|] action]; simpl; split.
    + intros _. now exists evs', action.
    + reflexivity.
    + discriminate.
    + intros (earlier & a & H). apply app_inj_tail in H. destruct H as [_ H].
      discriminate.
Qed.

(** C2, as amended: take any finite sequence of start and stop events,
    delivered one after the other to the board as start-up left it, the
    eight calls of the start-up and the timer command of every event being
    accepted.  All the events are handled, the timer ends in the state the
    last event asks for (STOPPED when there was no event), and ticks reach
    [timer_handler] exactly when the last event was a start. *)
Theorem last_event_wins (fuel : nat) (thread_prio : Z) (ans : list ret_code_t)
  (evs : list (blink_event * nrf_gpiote_polarity_t)) :
  (14 <= fuel)%nat ->
  accepts (8 + List.length evs) (power_on thread_prio ans) ->
  exists w0 w',
    run fuel main (power_on thread_prio ans) = (Running, w0) /\
    apply_events fuel evs w0 = (Returned tt, w') /\
    last_write_wins evs w'.
Proof.
  intros Hfuel Hall.
  destruct (accepts_split 8 (List.length evs) ans Hall) as [Hok Hrest].
  destruct (main_setup_ok (fuel - 14) (power_on thread_prio ans) Hok)
    as (w0 & Hrun & _ & _ & Ha & _ & _ & Ht & Hb & _).
  change (answers (power_on thread_prio ans)) with ans in Ha.
  change (blink (power_on thread_prio ans)) with STOPPED in Hb.
  assert (Hacc : accepts (List.length evs) w0) by (unfold accepts; now rewrite Ha).
  destruct (apply_events_accepted (fuel - 5) evs w0 Hacc) as (w' & Happ & Ht' & Hb').
  rewrite <- (fuel_split 5 fuel) in Happ by lia.
  exists w0, w'. split; [rewrite (fuel_split 14 fuel Hfuel); exact Hrun|].
  split; [exact Happ|]. rewrite Hb in Hb'. split; [exact Hb'|].
  rewrite <- last_target_running, <- Hb'.
  unfold toggle_active. rewrite Ht', Ht.
  destruct (blink w'); split; congruence.
Qed.

(** C3: a start while the timer is RUNNING at the ticks of 500 ms leaves it
    RUNNING at the same ticks, and a stop while it is STOPPED leaves it
    STOPPED, whatever the timer service answers; two start events in a row,
    the first of them accepted, leave the timer RUNNING at the ticks of
    500 ms with "Start toggling LED 1." logged twice. *)
Theorem start_stop_idempotent (fuel : nat) (w : World) (a1 a2 : nrf_gpiote_polarity_t) :
  (5 <= fuel)%nat ->
  (blink w = RUNNING -> period w = Some (APP_TIMER_TICKS 500) ->
   blink (snd (run fuel (button_handler BUTTON_1) w)) = RUNNING /\
   period (snd (run fuel (button_handler BUTTON_1) w)) = Some (APP_TIMER_TICKS 500)) /\
  (blink w = STOPPED ->
   blink (snd (run fuel (button_handler BUTTON_2) w)) = STOPPED) /\
  (next_status w = NRF_SUCCESS ->
   exists lines,
     let w2 := snd (apply_events fuel [(StartEvent, a1); (StartEvent, a2)] w) in
     blink w2 = RUNNING /\ period w2 = Some (APP_TIMER_TICKS 500) /\
     log w2 = log w ++ lines /\ count_line "Start toggling LED 1." lines = 2%nat).
Proof.
  intros Hfuel. rewrite (fuel_split 5 fuel Hfuel). set (k := (fuel - 5)%nat).
  split; [|split].
  - intros Hb Hp.
    destruct (Z.eq_dec (next_status w) NRF_SUCCESS) as [Hok|Hko].
    + destruct (button_start_ok k w Hok) as (w' & Hrun & _ & _ & Hb' & Hp' & _).
      change (3 + (2 + k))%nat with (5 + k)%nat in Hrun. rewrite Hrun. auto.
    + destruct (button_start_fail (2 + k) w Hko) as (w' & Hrun & _ & _ & Hb' & Hp' & _).
      change (3 + (2 + k))%nat with (5 + k)%nat in Hrun. rewrite Hrun. simpl.
      now rewrite Hb', Hp'.
  - intros Hb.
    destruct (Z.eq_dec (next_status w) NRF_SUCCESS) as [Hok|Hko].
    + destruct (button_stop_ok k w Hok) as (w' & Hrun & _ & _ & Hb' & _).
      change (3 + (2 + k))%nat with (5 + k)%nat in Hrun. rewrite Hrun. auto.
    + destruct (button_stop_fail (2 + k) w Hko) as (w' & Hrun & _ & _ & Hb' & _).
      change (3 + (2 + k))%nat with (5 + k)%nat in Hrun. rewrite Hrun. simpl.
      now rewrite Hb'.
  - intros Hok. cbn [apply_events pin_of]. unfold gpiote_event_handler.
    destruct (button_start_ok k w Hok)
      as (w1 & Hrun1 & Hlog1 & _ & Hb1 & Hp1 & _ & Hprio1 & _).
    change (3 + (2 + k))%nat with (5 + k)%nat in Hrun1. rewrite Hrun1.
    destruct (Z.eq_dec (next_status w1) NRF_SUCCESS) as [Hok2|Hko2].
    + destruct (button_start_ok k w1 Hok2) as (w2 & Hrun2 & Hlog2 & _ & Hb2 & Hp2 & _).
      change (3 + (2 + k))%nat with (5 + k)%nat in Hrun2. rewrite Hrun2. simpl.
      eexists. split; [exact Hb2|]. split; [exact Hp2|].
      rewrite Hlog2, Hlog1, <- app_assoc. split; [reflexivity|].
      unfold button_mode_line.
      destruct (priority w =? APP_IRQ_PRIORITY_THREAD),
               (priority w1 =? APP_IRQ_PRIORITY_THREAD); reflexivity.
    + destruct (button_start_fail (2 + k) w1 Hko2) as (w2 & Hrun2 & Hlog2 & _ & Hb2 & Hp2 & _).
      change (3 + (2 + k))%nat with (5 + k)%nat in Hrun2. rewrite Hrun2. simpl.
      eexists. split; [now rewrite Hb2|]. split; [now rewrite Hp2|].
      rewrite Hlog2, Hlog1, <- app_assoc. split; [reflexivity|].
      unfold button_mode_line.
      destruct (priority w =? APP_IRQ_PRIORITY_THREAD); reflexivity.
Qed.

(** ** The start-up functions one by one *)

(** X3: [lfclk_request] and [log_init] have the same shape: a fallible call,
    its check, and a second call that is made only when the first one
    succeeded; on failure the function is stopped with the status. *)
Theorem clock_and_log_init_guarded (fuel : nat) (w : World) :
  (3 <= fuel)%nat ->
  let c := next_status w in
  (fst (run fuel lfclk_request w) = (if c =? NRF_SUCCESS then Returned tt else Halted c) /\
   history (snd (run fuel lfclk_request w)) =
     history w ++ Call nrf_drv_clock_init c ::
       (if c =? NRF_SUCCESS then [Call (nrf_drv_clock_lfclk_request NULL) tt] else [])) /\
  (fst (run fuel log_init w) = (if c =? NRF_SUCCESS then Returned tt else Halted c) /\
   history (snd (run fuel log_init w)) =
     history w ++ Call (NRF_LOG_INIT NULL) c ::
       (if c =? NRF_SUCCESS then [Call NRF_LOG_DEFAULT_BACKENDS_INIT tt] else [])).
Proof.
  intros Hfuel. rewrite (fuel_split 3 fuel Hfuel). generalize (fuel - 3)%nat as k. intros k.
  destruct w as [ans prio lg lev inh ine th bl per hist].
  unfold next_status; simpl answers.
  destruct ans as [|c ans]; [|destruct c as [|c|c]];
    (split; run_eval; simpl; rewrite <- ?app_assoc; split; reflexivity).
Qed.

Lemma firstn_all_ok (n : nat) (l : list ret_code_t) :
  forallb (Z.eqb NRF_SUCCESS) (firstn n l) = true ->
  Forall (fun c => c = NRF_SUCCESS) (firstn n l).
Proof.
  intros H. rewrite forallb_forall in H. apply Forall_forall. intros c Hc.
  symmetry. apply Z.eqb_eq. now apply H.
Qed.

Lemma firstn_one_bad (n m : nat) (l : list ret_code_t) (c : ret_code_t) :
  (m < n)%nat -> nth_error l m = Some c -> c <> NRF_SUCCESS ->
  ~ Forall (fun c => c = NRF_SUCCESS) (firstn n l).
Proof.
  intros Hm Hnth Hc Hall. rewrite Forall_forall in Hall. apply Hc, Hall.
  assert (Hlen : (m < List.length l)%nat) by (apply nth_error_Some; congruence).
  rewrite <- (firstn_skipn n l) in Hnth.
  rewrite nth_error_app1 in Hnth; [eapply nth_error_In; eassumption|].
  rewrite length_firstn. lia.
Qed.

(** A leaf of the case analysis on the answers: every call succeeded, or
    the call number [n] failed. *)
Ltac init_ok :=
  left; (split; [apply firstn_all_ok; reflexivity|]); run_eval; eexists;
  (split; [reflexivity|]); simpl; rewrite <- ?app_assoc; repeat split.

Ltac init_ko n :=
  right; (split; [eapply (firstn_one_bad _ n); [lia|reflexivity|discriminate]|]);
  run_eval; do 3 eexists; refine (conj _ (conj eq_refl _)); [discriminate|];
  simpl; rewrite <- ?app_assoc; repeat (split; [reflexivity|]); simpl; repeat split.

Lemma timer_init_cases (k : nat) (w : World) :
  (accepts 2 w /\
   exists w',
     run (3 + k) timer_init w = (Returned tt, w') /\
     timeout_handler w' = Some timer_handler_ptr /\
     history w' = history w ++
       [Call app_timer_init NRF_SUCCESS;
        Call (app_timer_create m_led_a_timer_id APP_TIMER_MODE_REPEATED timer_handler_ptr)
          NRF_SUCCESS] /\
     blink w' = blink w /\ period w' = period w) \/
  (~ accepts 2 w /\
   exists code w' tr,
     code <> NRF_SUCCESS /\
     run (3 + k) timer_init w = (Halted code, w') /\
     timeout_handler w' = timeout_handler w /\
     history w' = history w ++ tr /\ stops_at code tr /\
     blink w' = blink w /\ period w' = period w).
Proof.
  destruct w as [ans prio lg lev inh ine th bl per hist].
  unfold accepts; simpl answers.
  destruct ans as [|c1 ans]; [init_ok|].
  destruct c1 as [|c1|c1]; [|init_ko 0%nat..].
  destruct ans as [|c2 ans]; [init_ok|].
  destruct c2 as [|c2|c2]; [init_ok|init_ko 1%nat..].
Qed.

(** X4: [timer_init] registers [timer_handler] as a repeated timer exactly when
    both of its calls succeed; when one fails it is stopped with that
    status at the failing call and nothing is registered.  In no case does
    it start the timer. *)
Theorem timer_init_registers_or_halts (fuel : nat) (w : World) :
  (3 <= fuel)%nat ->
  (accepts 2 w ->
   exists w',
     run fuel timer_init w = (Returned tt, w') /\
     timeout_handler w' = Some timer_handler_ptr /\
     history w' = history w ++
       [Call app_timer_init NRF_SUCCESS;
        Call (app_timer_create m_led_a_timer_id APP_TIMER_MODE_REPEATED timer_handler_ptr)
          NRF_SUCCESS]) /\
  (~ accepts 2 w ->
   exists code w' tr,
     code <> NRF_SUCCESS /\
     run fuel timer_init w = (Halted code, w') /\
     timeout_handler w' = timeout_handler w /\
     history w' = history w ++ tr /\ stops_at code tr) /\
  blink (snd (run fuel timer_init w)) = blink w /\
  period (snd (run fuel timer_init w)) = period w.
Proof.
  intros Hfuel. rewrite (fuel_split 3 fuel Hfuel). set (k := (fuel - 3)%nat).
  destruct (timer_init_cases k w)
    as [(Hok & w' & Hrun & Ht & Hhist & Hb & Hp)
       |(Hko & code & w' & tr & Hc & Hrun & Ht & Hhist & Hs & Hb & Hp)];
    rewrite Hrun; simpl snd.
  - split; [intros _; exists w'; auto|]. split; [contradiction|auto].
  - split; [contradiction|]. split; [|auto].
    intros _. exists code, w', tr. auto.
Qed.

Lemma gpio_init_cases (k : nat) (w : World) :
  (accepts 4 w /\
   exists w',
     run (8 + k) gpio_init w = (Returned tt, w') /\
     level w' = upd (upd (level w) LED_1 false) LED_1 true /\
     in_handler w' =
       upd (upd (in_handler w) BUTTON_1 (Some gpiote_event_handler_ptr))
         BUTTON_2 (Some gpiote_event_handler_ptr) /\
     in_enabled w' = upd (upd (in_enabled w) BUTTON_1 true) BUTTON_2 true /\
     history w' = history w ++
       [Call nrf_drv_gpiote_init NRF_SUCCESS;
        Call (nrf_drv_gpiote_out_init LED_1 (GPIOTE_CONFIG_OUT_SIMPLE false)) NRF_SUCCESS;
        Call (nrf_drv_gpiote_out_set LED_1) tt;
        Call (nrf_drv_gpiote_in_init BUTTON_1
                {| sense := NRF_GPIOTE_POLARITY_HITOLO; pull := NRF_GPIO_PIN_PULLUP;
                   hi_accuracy := true |} gpiote_event_handler_ptr) NRF_SUCCESS;
        Call (nrf_drv_gpiote_in_init BUTTON_2
                {| sense := NRF_GPIOTE_POLARITY_HITOLO; pull := NRF_GPIO_PIN_PULLUP;
                   hi_accuracy := true |} gpiote_event_handler_ptr) NRF_SUCCESS;
        Call (nrf_drv_gpiote_in_event_enable BUTTON_1 true) tt;
        Call (nrf_drv_gpiote_in_event_enable BUTTON_2 true) tt] /\
     log w' = log w /\ blink w' = blink w /\ timeout_handler w' = timeout_handler w) \/
  (~ accepts 4 w /\
   exists code w' tr,
     code <> NRF_SUCCESS /\
     run (8 + k) gpio_init w = (Halted code, w') /\
     history w' = history w ++ tr /\ stops_at code tr /\
     in_enabled w' = in_enabled w /\ existsb is_event_enable tr = false /\
     log w' = log w).
Proof.
  destruct w as [ans prio lg lev inh ine th bl per hist].
  unfold accepts; simpl answers.
  destruct ans as [|c1 ans]; [init_ok|].
  destruct c1 as [|c1|c1]; [|init_ko 0%nat..].
  destruct ans as [|c2 ans]; [init_ok|].
  destruct c2 as [|c2|c2]; [|init_ko 1%nat..].
  destruct ans as [|c3 ans]; [init_ok|].
  destruct c3 as [|c3|c3]; [|init_ko 2%nat..].
  destruct ans as [|c4 ans]; [init_ok|].
  destruct c4 as [|c4|c4]; [init_ok|init_ko 3%nat..].
Qed.

(** X1: [gpio_init], when its four fallible calls succeed, returns with the
    LED pin driven high whatever its level was, both buttons configured to
    sense the falling edge with the pull-up and wired to
    [gpiote_event_handler], and both button interrupts enabled; the log and
    the timer are not touched. *)
Theorem gpio_init_configures (fuel : nat) (w : World) :
  (8 <= fuel)%nat -> accepts 4 w ->
  exists w',
    run fuel gpio_init w = (Returned tt, w') /\
    level w' LED_1 = true /\
    (forall pin, pin <> LED_1 -> level w' pin = level w pin) /\
    in_handler w' BUTTON_1 = Some gpiote_event_handler_ptr /\
    in_handler w' BUTTON_2 = Some gpiote_event_handler_ptr /\
    in_enabled w' BUTTON_1 = true /\ in_enabled w' BUTTON_2 = true /\
    history w' = history w ++
      [Call nrf_drv_gpiote_init NRF_SUCCESS;
       Call (nrf_drv_gpiote_out_init LED_1 {| init_state := false; task_pin := false |})
         NRF_SUCCESS;
       Call (nrf_drv_gpiote_out_set LED_1) tt;
       Call (nrf_drv_gpiote_in_init BUTTON_1
               {| sense := NRF_GPIOTE_POLARITY_HITOLO; pull := NRF_GPIO_PIN_PULLUP;
                  hi_accuracy := true |} gpiote_event_handler_ptr) NRF_SUCCESS;
       Call (nrf_drv_gpiote_in_init BUTTON_2
               {| sense := NRF_GPIOTE_POLARITY_HITOLO; pull := NRF_GPIO_PIN_PULLUP;
                  hi_accuracy := true |} gpiote_event_handler_ptr) NRF_SUCCESS;
       Call (nrf_drv_gpiote_in_event_enable BUTTON_1 true) tt;
       Call (nrf_drv_gpiote_in_event_enable BUTTON_2 true) tt] /\
    log w' = log w /\ blink w' = blink w /\ timeout_handler w' = timeout_handler w.
Proof.
  intros Hfuel Hok. rewrite (fuel_split 8 fuel Hfuel).
  destruct (gpio_init_cases (fuel - 8) w)
    as [(_ & w' & Hrun & Hlev & Hinh & Hine & Hhist & Hlog & Hb & Ht)|(Hko & _)];
    [|contradiction].
  exists w'. split; [exact Hrun|]. rewrite Hlev, Hinh, Hine. unfold upd.
  rewrite !Z.eqb_refl.
  split; [reflexivity|].
  split; [intros pin Hpin; now rewrite (proj2 (Z.eqb_neq pin LED_1))|].
  split; [now destruct (BUTTON_1 =? BUTTON_2)|].
  split; [reflexivity|].
  split; [now destruct (BUTTON_1 =? BUTTON_2)|].
  split; [reflexivity|].
  split; [exact Hhist|]. auto.
Qed.

(** X2: [gpio_init], when one of its four fallible calls fails, is stopped at
    that call with its status; no button interrupt has been enabled by
    then, since both enables come after the last check. *)
Theorem gpio_init_failure_enables_nothing (fuel : nat) (w : World) :
  (8 <= fuel)%nat -> ~ accepts 4 w ->
  exists code w' tr,
    code <> NRF_SUCCESS /\
    run fuel gpio_init w = (Halted code, w') /\
    history w' = history w ++ tr /\ stops_at code tr /\
    existsb is_event_enable tr = false /\
    in_enabled w' = in_enabled w /\ log w' = log w.
Proof.
  intros Hfuel Hko. rewrite (fuel_split 8 fuel Hfuel).
  destruct (gpio_init_cases (fuel - 8) w)
    as [(Hok & _)|(_ & code & w' & tr & Hc & Hrun & Hhist & Hs & Hine & Hen & Hlog)];
    [contradiction|].
  exists code, w', tr. auto 10.
Qed.

(** ** The banner *)

(** X5: [main] logs its banner exactly when all eight fallible calls of the
    start-up succeed; otherwise it is stopped with the failing status and
    has logged nothing. *)
Theorem main_banner_iff_setup_ok (fuel : nat) (w : World) :
  (14 <= fuel)%nat ->
  (accepts 8 w /\
   fst (run fuel main w) = Running /\
   log (snd (run fuel main w)) = log w ++ ["Scheduler tutorial example started."]) \/
  (~ accepts 8 w /\
   (exists code, code <> NRF_SUCCESS /\ fst (run fuel main w) = Halted code) /\
   log (snd (run fuel main w)) = log w).
Proof.
  intros Hfuel. rewrite (fuel_split 14 fuel Hfuel). set (k := (fuel - 14)%nat).
  destruct (main_setup_cases k w) as [Hok|(code & w' & tr & Hc & Hrun & _ & _ & Hlog)].
  - left. destruct (main_setup_ok k w Hok) as (w' & Hrun & Hlog & _).
    rewrite Hrun. auto.
  - right. split.
    + intros Hok. destruct (main_setup_ok k w Hok) as (w'' & Hrun' & _). congruence.
    + rewrite Hrun. split; [exists code; auto|exact Hlog].
Qed.

(** ** What the handlers leave alone *)

(** X6: [button_handler] never drives a pin and never changes which handlers
    are registered or enabled: whatever the pin and whatever the timer
    service answers, the output levels (so the LED), the button wiring, the
    timeout handler and the priority are as before, and at most one pending
    answer has been used.  In particular a stop leaves the LED as it is. *)
Theorem button_handler_leaves_pins (fuel : nat) (pin : nrf_drv_gpiote_pin_t) (w : World) :
  (5 <= fuel)%nat ->
  let w' := snd (run fuel (button_handler pin) w) in
  level w' = level w /\ in_handler w' = in_handler w /\ in_enabled w' = in_enabled w /\
  timeout_handler w' = timeout_handler w /\ priority w' = priority w /\
  (answers w' = answers w \/ answers w' = tl (answers w)).
Proof.
  intros Hfuel. rewrite (fuel_split 5 fuel Hfuel). set (k := (fuel - 5)%nat).
  destruct (Z.eq_dec pin BUTTON_1) as [->|H1]; [|destruct (Z.eq_dec pin BUTTON_2) as [->|H2]];
    [destruct (Z.eq_dec (next_status w) NRF_SUCCESS) as [Hok|Hko]..|].
  - destruct (button_start_ok k w Hok) as (w' & Hrun & E).
    change (3 + (2 + k))%nat with (5 + k)%nat in Hrun. rewrite Hrun.
    unfold effect in E. simpl. intuition.
  - destruct (button_start_fail (2 + k) w Hko) as (w' & Hrun & E).
    change (3 + (2 + k))%nat with (5 + k)%nat in Hrun. rewrite Hrun.
    unfold effect in E. simpl. intuition.
  - destruct (button_stop_ok k w Hok) as (w' & Hrun & E).
    change (3 + (2 + k))%nat with (5 + k)%nat in Hrun. rewrite Hrun.
    unfold effect in E. simpl. intuition.
  - destruct (button_stop_fail (2 + k) w Hko) as (w' & Hrun & E).
    change (3 + (2 + k))%nat with (5 + k)%nat in Hrun. rewrite Hrun.
    unfold effect in E. simpl. intuition.
  - destruct (button_other (2 + k) pin w H1 H2) as (w' & Hrun & E).
    change (1 + (2 + (2 + k)))%nat with (5 + k)%nat in Hrun. rewrite Hrun.
    unfold effect in E. simpl. intuition.
Qed.

(** X7: the priority [button_handler] runs at shows in its last log line and
    nowhere else: run from two boards that differ only in the priority, it
    ends the same way, with the same timer state, period, pending answers
    and pin levels, and the two logs differ at most in the mode line. *)
Theorem button_handler_mode_only_in_log
  (fuel : nat) (pin : nrf_drv_gpiote_pin_t) (w : World) (p1 p2 : Z) :
  (5 <= fuel)%nat ->
  let r1 := run fuel (button_handler pin) (set_priority p1 w) in
  let r2 := run fuel (button_handler pin) (set_priority p2 w) in
  fst r1 = fst r2 /\
  blink (snd r1) = blink (snd r2) /\ period (snd r1) = period (snd r2) /\
  answers (snd r1) = answers (snd r2) /\ level (snd r1) = level (snd r2) /\
  exists lines,
    (log (snd r1) = log w ++ lines /\ log (snd r2) = log w ++ lines) \/
    (log (snd r1) = log w ++ lines ++ [button_mode_line p1] /\
     log (snd r2) = log w ++ lines ++ [button_mode_line p2]).
Proof.
  intros Hfuel. rewrite (fuel_split 5 fuel Hfuel). set (k := (fuel - 5)%nat).
  assert (Hn : forall p, next_status (set_priority p w) = next_status w) by reflexivity.
  destruct (Z.eq_dec pin BUTTON_1) as [->|H1]; [|destruct (Z.eq_dec pin BUTTON_2) as [->|H2]];
    [destruct (Z.eq_dec (next_status w) NRF_SUCCESS) as [Hok|Hko]..|].
  - destruct (button_start_ok k (set_priority p1 w)) as (w1 & Hrun1 & E1); [now rewrite Hn|].
    destruct (button_start_ok k (set_priority p2 w)) as (w2 & Hrun2 & E2); [now rewrite Hn|].
    change (3 + (2 + k))%nat with (5 + k)%nat in Hrun1, Hrun2. rewrite Hrun1, Hrun2.
    unfold effect in E1, E2. simpl in *.
    destruct E1 as (L1 & _ & B1 & P1 & A1 & _ & V1 & _), E2 as (L2 & _ & B2 & P2 & A2 & _ & V2 & _).
    repeat (split; [congruence|]).
    exists ["Start toggling LED 1."]. right. split; assumption.
  - destruct (button_start_fail (2 + k) (set_priority p1 w)) as (w1 & Hrun1 & E1); [now rewrite Hn|].
    destruct (button_start_fail (2 + k) (set_priority p2 w)) as (w2 & Hrun2 & E2); [now rewrite Hn|].
    change (3 + (2 + k))%nat with (5 + k)%nat in Hrun1, Hrun2. rewrite Hrun1, Hrun2.
    unfold effect in E1, E2. simpl in *.
    destruct E1 as (L1 & _ & B1 & P1 & A1 & _ & V1 & _), E2 as (L2 & _ & B2 & P2 & A2 & _ & V2 & _).
    repeat (split; [congruence|]).
    exists ["Start toggling LED 1."]. left. split; assumption.
  - destruct (button_stop_ok k (set_priority p1 w)) as (w1 & Hrun1 & E1); [now rewrite Hn|].
    destruct (button_stop_ok k (set_priority p2 w)) as (w2 & Hrun2 & E2); [now rewrite Hn|].
    change (3 + (2 + k))%nat with (5 + k)%nat in Hrun1, Hrun2. rewrite Hrun1, Hrun2.
    unfold effect in E1, E2. simpl in *.
    destruct E1 as (L1 & _ & B1 & P1 & A1 & _ & V1 & _), E2 as (L2 & _ & B2 & P2 & A2 & _ & V2 & _).
    repeat (split; [congruence|]).
    exists ["Stop toggling LED 1."]. right. split; assumption.
  - destruct (button_stop_fail (2 + k) (set_priority p1 w)) as (w1 & Hrun1 & E1); [now rewrite Hn|].
    destruct (button_stop_fail (2 + k) (set_priority p2 w)) as (w2 & Hrun2 & E2); [now rewrite Hn|].
    change (3 + (2 + k))%nat with (5 + k)%nat in Hrun1, Hrun2. rewrite Hrun1, Hrun2.
    unfold effect in E1, E2. simpl in *.
    destruct E1 as (L1 & _ & B1 & P1 & A1 & _ & V1 & _), E2 as (L2 & _ & B2 & P2 & A2 & _ & V2 & _).
    repeat (split; [congruence|]).
    exists ["Stop toggling LED 1."]. left. split; assumption.
  - destruct (button_other (2 + k) pin (set_priority p1 w) H1 H2) as (w1 & Hrun1 & E1).
    destruct (button_other (2 + k) pin (set_priority p2 w) H1 H2) as (w2 & Hrun2 & E2).
    change (1 + (2 + (2 + k)))%nat with (5 + k)%nat in Hrun1, Hrun2. rewrite Hrun1, Hrun2.
    unfold effect in E1, E2. simpl in *.
    destruct E1 as (L1 & _ & B1 & P1 & A1 & _ & V1 & _), E2 as (L2 & _ & B2 & P2 & A2 & _ & V2 & _).
    repeat (split; [congruence|]).
    exists []. right. split; assumption.
Qed.

(** ** Blinking *)

Lemma flip_parity (n : nat) (b : bool) :
  (if Nat.even n then negb b else negb (negb b)) = (if Nat.even (S n) then b else negb b).
Proof.
  rewrite Nat.even_succ, <- Nat.negb_even.
  destruct (Nat.even n), b; reflexivity.
Qed.

(** X8: while ticks reach [timer_handler], [n] ticks are [n] invocations that
    all return: the LED pin ends at its first level when [n] is even and
    at the opposite level when [n] is odd, one line is logged per tick, and
    the handler never stops its own timer nor uses up an answer of the
    SDK. *)
Theorem ticks_blink (fuel n : nat) :
  forall w : World,
    (4 <= fuel)%nat -> toggle_active w = true ->
    exists w',
      timer_ticks fuel n w = (Returned tt, w') /\
      level w' LED_1 = (if Nat.even n then level w LED_1 else negb (level w LED_1)) /\
      (forall pin, pin <> LED_1 -> level w' pin = level w pin) /\
      List.length (log w') = (List.length (log w) + n)%nat /\
      toggle_active w' = true /\
      blink w' = blink w /\ period w' = period w /\ answers w' = answers w /\
      timeout_handler w' = timeout_handler w.
Proof.
  induction n as [|n IH]; intros w Hfuel Hon.
  - exists w. simpl. rewrite Nat.add_0_r. auto 10.
  - destruct (timer_handler_runs (fuel - 4) NULL w)
      as (w1 & Hrun & Hlog & _ & Hlev & Hb & Hp & Ha & _ & Ht).
    change (2 + (2 + (fuel - 4)))%nat with (4 + (fuel - 4))%nat in Hrun.
    rewrite <- (fuel_split 4 fuel Hfuel) in Hrun.
    assert (Hon1 : toggle_active w1 = true)
      by (unfold toggle_active in *; now rewrite Hb, Ht).
    destruct (IH w1 Hfuel Hon1)
      as (w' & Hticks & Hlev' & Hpins & Hlen & Hon' & Hb' & Hp' & Ha' & Ht').
    exists w'. split.
    { cbn [timer_ticks]. unfold timer_tick. rewrite Hon, Hrun. exact Hticks. }
    split.
    { rewrite Hlev', Hlev. unfold upd. rewrite Z.eqb_refl. apply flip_parity. }
    split.
    { intros pin Hpin. rewrite (Hpins pin Hpin), Hlev. unfold upd.
      now rewrite (proj2 (Z.eqb_neq pin LED_1)). }
    split.
    { rewrite Hlen, Hlog, length_app. simpl. lia. }
    split; [exact Hon'|]. repeat split; congruence.
Qed.

(** X9: a whole blink, on a board whose timer service accepts every command and
    delivers its ticks to [timer_handler]: a start event, [n] ticks, a
    stop event, [m] more ticks.  The ticks after the stop reach nothing,
    and the stop itself does not drive the LED pin: the pin is left where
    the [n] ticks put it, so the LED stays lit when the stop comes after an
    odd number of ticks from an unlit LED. *)
Theorem stop_freezes_led (fuel n m : nat) (w : World) (a1 a2 : nrf_gpiote_polarity_t) :
  (5 <= fuel)%nat -> serving w ->
  exists w1 w2 w3,
    apply_events fuel [(StartEvent, a1)] w = (Returned tt, w1) /\
    timer_ticks fuel n w1 = (Returned tt, w2) /\
    apply_events fuel [(StopEvent, a2)] w2 = (Returned tt, w3) /\
    timer_ticks fuel m w3 = (Returned tt, w3) /\
    blink w3 = STOPPED /\
    level w3 LED_1 = (if Nat.even n then level w LED_1 else negb (level w LED_1)) /\
    List.length (log w3) = (List.length (log w) + n + 4)%nat.
Proof.
  intros Hfuel Hs. pose proof (serving_next w Hs) as Hok. destruct Hs as [Hall Hth].
  pose proof (fuel_split 5 fuel Hfuel) as Hf. set (k := (fuel - 5)%nat) in Hf.
  destruct (button_start_ok k w Hok)
    as (w1 & Hrun1 & Hlog1 & _ & Hb1 & _ & Ha1 & _ & Hlev1 & _ & _ & Ht1).
  change (3 + (2 + k))%nat with (5 + k)%nat in Hrun1. rewrite <- Hf in Hrun1.
  assert (Hon1 : toggle_active w1 = true)
    by (unfold toggle_active; now rewrite Hb1, Ht1, Hth).
  destruct (ticks_blink fuel n w1) as
    (w2 & Hticks & Hlev2 & _ & Hlen2 & _ & _ & _ & Ha2 & Ht2); [lia|exact Hon1|].
  assert (Hok2 : next_status w2 = NRF_SUCCESS).
  { unfold next_status. rewrite Ha2, Ha1.
    destruct (answers w) as [|c [|c' l]]; try reflexivity.
    inversion Hall as [|? ? _ Hall']. now inversion Hall'. }
  destruct (button_stop_ok k w2 Hok2)
    as (w3 & Hrun3 & Hlog3 & _ & Hb3 & _ & _ & _ & Hlev3 & _).
  change (3 + (2 + k))%nat with (5 + k)%nat in Hrun3. rewrite <- Hf in Hrun3.
  exists w1, w2, w3.
  split; [cbn [apply_events pin_of]; unfold gpiote_event_handler; now rewrite Hrun1|].
  split; [exact Hticks|].
  split; [cbn [apply_events pin_of]; unfold gpiote_event_handler; now rewrite Hrun3|].
  split; [apply timer_ticks_idle; unfold toggle_active; now rewrite Hb3|].
  split; [exact Hb3|].
  split; [now rewrite Hlev3, Hlev2, Hlev1|].
  rewrite Hlog3, length_app, Hlen2, Hlog1, length_app. simpl. lia.
Qed.

End Program.

(** * The properties on the nRF52 DK *)

Local Abbreviation dk_button_handler :=
  (button_handler PCA10040.BUTTON_1 PCA10040.BUTTON_2
     PCA10040.APP_IRQ_PRIORITY_THREAD PCA10040.APP_TIMER_TICKS).
Local Abbreviation dk_main := (main PCA10040.BUTTON_1 PCA10040.BUTTON_2 PCA10040.LED_1).
Local Abbreviation dk_timer_handler :=
  (timer_handler PCA10040.LED_1 PCA10040.APP_IRQ_PRIORITY_THREAD).
Local Abbreviation dk_apply_events :=
  (apply_events PCA10040.BUTTON_1 PCA10040.BUTTON_2
     PCA10040.APP_IRQ_PRIORITY_THREAD PCA10040.APP_TIMER_TICKS).
Local Abbreviation thread := PCA10040.APP_IRQ_PRIORITY_THREAD.

Lemma dk_buttons_distinct : PCA10040.BUTTON_1 <> PCA10040.BUTTON_2.
Proof. discriminate. Defined.

(** [button_handler_commands] in thread mode, the timer service accepting. *)
Lemma button_handler_commands_witness :
  (5 <= 5)%nat /\
  exists status calls lines,
    history (snd (run 5 (dk_button_handler PCA10040.BUTTON_1) (power_on thread []))) =
      [] ++ Call (NRF_LOG_INFO "Start toggling LED 1.") tt ::
            Call (app_timer_start m_led_a_timer_id (PCA10040.APP_TIMER_TICKS 500) NULL) status ::
            calls /\
    log (snd (run 5 (dk_button_handler PCA10040.BUTTON_1) (power_on thread []))) =
      [] ++ "Start toggling LED 1." :: lines.
Proof.
  assert (Hfuel : (5 <= 5)%nat) by lia.
  split; [exact Hfuel|].
  exact (proj1 (button_handler_commands PCA10040.BUTTON_1 PCA10040.BUTTON_2 thread PCA10040.APP_TIMER_TICKS dk_buttons_distinct
                  5%nat (power_on thread []) Hfuel)).
Defined.

(** C4 as the specification words it fails on the DK for pin 15 (button 3),
    which is neither [BUTTON_1] nor [BUTTON_2]: the handler logs a line. *)
Lemma other_pin_still_logs :
  15 <> PCA10040.BUTTON_1 /\ 15 <> PCA10040.BUTTON_2 /\
  ~ no_observable_effect
      (power_on thread [])
      (snd (run 5 (dk_button_handler 15) (power_on thread []))).
Proof.
  split; [discriminate|]. split; [discriminate|].
  intros [Hlog _].
  assert (E : log (snd (run 5 (dk_button_handler 15) (power_on thread []))) =
              ["Button handler is executing in thread/main mode."])
    by (vm_compute; reflexivity).
  rewrite E in Hlog. discriminate Hlog.
Qed.

(** [button_handler_other_pin] for pin 15 of the DK. *)
Lemma button_handler_other_pin_witness :
  (3 <= 5)%nat /\ 15 <> PCA10040.BUTTON_1 /\ 15 <> PCA10040.BUTTON_2 /\
  exists w',
    run 5 (dk_button_handler 15) (power_on thread []) = (Returned tt, w') /\
    log w' = [] ++ ["Button handler is executing in thread/main mode."] /\
    history w' = [] ++
                 [Call current_int_priority_get thread;
                  Call (NRF_LOG_INFO "Button handler is executing in thread/main mode.") tt] /\
    blink w' = STOPPED /\ period w' = None /\ answers w' = [].
Proof.
  assert (Hfuel : (3 <= 5)%nat) by lia.
  assert (H1 : 15 <> PCA10040.BUTTON_1) by discriminate.
  assert (H2 : 15 <> PCA10040.BUTTON_2) by discriminate.
  split; [exact Hfuel|]. split; [exact H1|]. split; [exact H2|].
  exact (button_handler_other_pin PCA10040.BUTTON_1 PCA10040.BUTTON_2 thread
           PCA10040.APP_TIMER_TICKS 5%nat 15 (power_on thread []) Hfuel H1 H2).
Defined.

(** C5 as the specification words it fails on the DK when the timer
    service answers [NRF_ERROR_NO_MEM] to the start command: the handler is
    stopped in [APP_ERROR_CHECK] and its output does not end with a mode
    line. *)
Lemma failed_command_skips_mode_line :
  ~ ends_with_mode_line thread
      (power_on thread [NRF_ERROR_NO_MEM])
      (snd (run 5 (dk_button_handler PCA10040.BUTTON_1) (power_on thread [NRF_ERROR_NO_MEM]))).
Proof.
  intros (lines & calls & Hlog & _).
  assert (E : log (snd (run 5 (dk_button_handler PCA10040.BUTTON_1)
                          (power_on thread [NRF_ERROR_NO_MEM]))) =
              ["Start toggling LED 1."])
    by (vm_compute; reflexivity).
  rewrite E in Hlog. simpl in Hlog.
  destruct lines as [|l [|l' lines]]; discriminate Hlog.
Qed.

(** [button_handler_logs_mode] for the start button, the command accepted. *)
Lemma button_handler_logs_mode_witness :
  (5 <= 5)%nat /\
  (PCA10040.BUTTON_1 = PCA10040.BUTTON_1 \/ PCA10040.BUTTON_1 = PCA10040.BUTTON_2 ->
   next_status (power_on thread []) = NRF_SUCCESS) /\
  fst (run 5 (dk_button_handler PCA10040.BUTTON_1) (power_on thread [])) = Returned tt /\
  ends_with_mode_line thread (power_on thread [])
    (snd (run 5 (dk_button_handler PCA10040.BUTTON_1) (power_on thread []))).
Proof.
  assert (Hfuel : (5 <= 5)%nat) by lia.
  assert (Hok : PCA10040.BUTTON_1 = PCA10040.BUTTON_1 \/ PCA10040.BUTTON_1 = PCA10040.BUTTON_2 ->
                next_status (power_on thread []) = NRF_SUCCESS) by reflexivity.
  split; [exact Hfuel|]. split; [exact Hok|].
  destruct (button_handler_logs_mode PCA10040.BUTTON_1 PCA10040.BUTTON_2 thread PCA10040.APP_TIMER_TICKS dk_buttons_distinct
              5%nat PCA10040.BUTTON_1 (power_on thread []) Hfuel Hok) as (Hret & Hends & _).
  split; [exact Hret|exact Hends].
Defined.

(** [timer_handler_toggles_and_logs] from the GPIOTE/RTC interrupt level. *)
Lemma timer_handler_toggles_and_logs_witness :
  (4 <= 4)%nat /\
  exists w',
    run 4 (dk_timer_handler NULL) (power_on PCA10040.APP_IRQ_PRIORITY_LOW []) =
      (Returned tt, w') /\
    level w' PCA10040.LED_1 = true.
Proof.
  assert (Hfuel : (4 <= 4)%nat) by lia.
  split; [exact Hfuel|].
  destruct (timer_handler_toggles_and_logs PCA10040.LED_1 thread 4%nat NULL
              (power_on PCA10040.APP_IRQ_PRIORITY_LOW []) Hfuel)
    as (w' & Hrun & Hlev & _).
  exists w'. split; [exact Hrun|exact Hlev].
Defined.

(** [failures_are_fatal] when [nrf_drv_gpiote_init] reports an error. *)
Lemma failures_are_fatal_witness :
  (14 <= 20)%nat /\
  fail_fast (power_on thread [0; 0; 8])
    (run 20 dk_main (power_on thread [0; 0; 8])).
Proof.
  assert (Hfuel : (14 <= 20)%nat) by lia.
  split; [exact Hfuel|].
  exact (proj1 (failures_are_fatal PCA10040.BUTTON_1 PCA10040.BUTTON_2 PCA10040.LED_1 thread PCA10040.APP_TIMER_TICKS
                  dk_buttons_distinct 20%nat (power_on thread [0; 0; 8]) Hfuel)).
Defined.

Lemma accepts_nil (n : nat) (prio : Z) : accepts n (power_on prio []).
Proof. unfold accepts. destruct n; constructor. Defined.

(** [main_never_returns] with every call of the start-up succeeding. *)
Lemma main_never_returns_witness :
  (14 <= 20)%nat /\ accepts 8 (power_on thread []) /\
  exists w',
    run 20 dk_main (power_on thread []) = (Running, w') /\
    log w' = [] ++ ["Scheduler tutorial example started."].
Proof.
  assert (Hfuel : (14 <= 20)%nat) by lia.
  split; [exact Hfuel|]. split; [apply accepts_nil|].
  destruct (proj2 (main_never_returns PCA10040.BUTTON_1 PCA10040.BUTTON_2 PCA10040.LED_1)
              20%nat (power_on thread []) Hfuel (accepts_nil 8 thread))
    as (w' & Hrun & Hlog & _).
  exists w'. split; [exact Hrun|exact Hlog].
Defined.

(** [power_on_state] with every call of the start-up succeeding. *)
Lemma power_on_state_witness :
  (14 <= 14)%nat /\ accepts 8 (power_on thread []) /\
  exists w,
    run 14 dk_main (power_on thread []) = (Running, w) /\
    blink w = STOPPED /\ level w PCA10040.LED_1 = true /\ toggle_active w = false.
Proof.
  assert (Hfuel : (14 <= 14)%nat) by lia.
  split; [exact Hfuel|]. split; [apply accepts_nil|].
  destruct (power_on_state PCA10040.BUTTON_1 PCA10040.BUTTON_2 PCA10040.LED_1 thread
              14%nat thread [] Hfuel (accepts_nil 8 thread))
    as (w & Hrun & Hb & Hlev & Hoff & _).
  exists w. repeat split; assumption.
Defined.

(** C2 as the specification words it fails on the DK when the timer
    service answers [NRF_ERROR_NO_MEM] to the command of a start event
    delivered after a start-up that went through: the handler is stopped in
    [APP_ERROR_CHECK], the timer is still STOPPED and ticks reach nothing,
    although the last event is a start. *)
Lemma rejected_start_does_not_win :
  fst (run 14 dk_main (power_on thread [0; 0; 0; 0; 0; 0; 0; 0; NRF_ERROR_NO_MEM])) = Running /\
  ~ last_write_wins
      [(StartEvent, NRF_GPIOTE_POLARITY_HITOLO)]
      (snd (dk_apply_events 14 [(StartEvent, NRF_GPIOTE_POLARITY_HITOLO)]
              (snd (run 14 dk_main
                      (power_on thread [0; 0; 0; 0; 0; 0; 0; 0; NRF_ERROR_NO_MEM]))))).
Proof.
  split; [vm_compute; reflexivity|].
  intros [Hb _].
  assert (E : blink (snd (dk_apply_events 14 [(StartEvent, NRF_GPIOTE_POLARITY_HITOLO)]
                            (snd (run 14 dk_main
                                    (power_on thread
                                       [0; 0; 0; 0; 0; 0; 0; 0; NRF_ERROR_NO_MEM]))))) =
              STOPPED)
    by (vm_compute; reflexivity).
  rewrite E in Hb. simpl in Hb. discriminate Hb.
Qed.

(** [last_event_wins] for start, stop, start, every command accepted. *)
Lemma last_event_wins_witness :
  (14 <= 14)%nat /\ accepts (8 + 3) (power_on thread [0; 0]) /\
  exists w0 w',
    run 14 dk_main (power_on thread [0; 0]) = (Running, w0) /\
    dk_apply_events 14
      [(StartEvent, NRF_GPIOTE_POLARITY_HITOLO); (StopEvent, NRF_GPIOTE_POLARITY_HITOLO);
       (StartEvent, NRF_GPIOTE_POLARITY_HITOLO)] w0 = (Returned tt, w') /\
    blink w' = RUNNING.
Proof.
  assert (Hfuel : (14 <= 14)%nat) by lia.
  assert (Hall : accepts (8 + 3) (power_on thread [0; 0]))
    by (unfold accepts; simpl; repeat constructor).
  split; [exact Hfuel|]. split; [exact Hall|].
  destruct (last_event_wins PCA10040.BUTTON_1 PCA10040.BUTTON_2 PCA10040.LED_1 thread
              PCA10040.APP_TIMER_TICKS dk_buttons_distinct 14%nat thread [0; 0]
              [(StartEvent, NRF_GPIOTE_POLARITY_HITOLO); (StopEvent, NRF_GPIOTE_POLARITY_HITOLO);
               (StartEvent, NRF_GPIOTE_POLARITY_HITOLO)] Hfuel Hall)
    as (w0 & w' & Hrun & Happ & Hb & _).
  exists w0, w'. split; [exact Hrun|]. split; [exact Happ|exact Hb].
Defined.

(** [start_stop_idempotent]: a start on a running timer, a stop on a
    stopped one, and two starts in a row from power-on. *)
Lemma start_stop_idempotent_witness :
  let running :=
    set_period (Some (PCA10040.APP_TIMER_TICKS 500)) (set_blink RUNNING (power_on thread [])) in
  (5 <= 5)%nat /\
  blink running = RUNNING /\ period running = Some (PCA10040.APP_TIMER_TICKS 500) /\
  blink (power_on thread []) = STOPPED /\ next_status (power_on thread []) = NRF_SUCCESS /\
  blink (snd (run 5 (dk_button_handler PCA10040.BUTTON_1) running)) = RUNNING /\
  blink (snd (run 5 (dk_button_handler PCA10040.BUTTON_2) (power_on thread []))) = STOPPED /\
  exists lines,
    log (snd (dk_apply_events 5
                [(StartEvent, NRF_GPIOTE_POLARITY_HITOLO);
                 (StartEvent, NRF_GPIOTE_POLARITY_HITOLO)] (power_on thread []))) =
      [] ++ lines /\
    count_line "Start toggling LED 1." lines = 2%nat.
Proof.
  intros running.
  assert (Hfuel : (5 <= 5)%nat) by lia.
  assert (Hb : blink running = RUNNING) by reflexivity.
  assert (Hp : period running = Some (PCA10040.APP_TIMER_TICKS 500)) by reflexivity.
  assert (Hs : blink (power_on thread []) = STOPPED) by reflexivity.
  assert (Hok : next_status (power_on thread []) = NRF_SUCCESS) by reflexivity.
  do 5 (split; [assumption|]).
  split; [|split].
  - exact (proj1 (proj1 (start_stop_idempotent PCA10040.BUTTON_1 PCA10040.BUTTON_2 thread PCA10040.APP_TIMER_TICKS
                           dk_buttons_distinct 5%nat running
                           NRF_GPIOTE_POLARITY_HITOLO NRF_GPIOTE_POLARITY_HITOLO Hfuel)
                    Hb Hp)).
  - exact (proj1 (proj2 (start_stop_idempotent PCA10040.BUTTON_1 PCA10040.BUTTON_2 thread PCA10040.APP_TIMER_TICKS
                           dk_buttons_distinct 5%nat (power_on thread [])
                           NRF_GPIOTE_POLARITY_HITOLO NRF_GPIOTE_POLARITY_HITOLO Hfuel))
             Hs).
  - destruct (proj2 (proj2 (start_stop_idempotent PCA10040.BUTTON_1 PCA10040.BUTTON_2 thread PCA10040.APP_TIMER_TICKS
                              dk_buttons_distinct 5%nat (power_on thread [])
                              NRF_GPIOTE_POLARITY_HITOLO NRF_GPIOTE_POLARITY_HITOLO Hfuel))
                Hok) as (lines & _ & _ & Hlog & Hcount).
    exists lines. split; [exact Hlog|exact Hcount].
Defined.

(** ** The start-up functions and the blink on the nRF52 DK *)

Local Abbreviation dk_gpio_init :=
  (gpio_init PCA10040.BUTTON_1 PCA10040.BUTTON_2 PCA10040.LED_1).
Local Abbreviation dk_timer_ticks :=
  (timer_ticks PCA10040.LED_1 PCA10040.APP_IRQ_PRIORITY_THREAD).

Lemma dk_second_answer_bad (n : nat) : (2 <= n)%nat -> ~ accepts n (power_on thread [0; 3]).
Proof.
  intros Hn. unfold accepts.
  apply (firstn_one_bad n 1 [0; 3] 3); [lia|reflexivity|discriminate].
Defined.

(** [clock_and_log_init_guarded] when the clock driver reports an error. *)
Lemma clock_and_log_init_guarded_witness :
  (3 <= 3)%nat /\
  fst (run 3 lfclk_request (power_on thread [3])) = Halted 3 /\
  history (snd (run 3 lfclk_request (power_on thread [3]))) = [Call nrf_drv_clock_init 3].
Proof.
  assert (Hfuel : (3 <= 3)%nat) by lia.
  split; [exact Hfuel|].
  exact (proj1 (clock_and_log_init_guarded 3%nat (power_on thread [3]) Hfuel)).
Defined.

(** [timer_init_registers_or_halts], once with both calls succeeding and
    once with [app_timer_create] failing. *)
Lemma timer_init_registers_or_halts_witness :
  (3 <= 3)%nat /\ accepts 2 (power_on thread []) /\ ~ accepts 2 (power_on thread [0; 3]) /\
  (exists w',
      run 3 timer_init (power_on thread []) = (Returned tt, w') /\
      timeout_handler w' = Some timer_handler_ptr) /\
  (exists code w',
      run 3 timer_init (power_on thread [0; 3]) = (Halted code, w') /\
      timeout_handler w' = None).
Proof.
  assert (Hfuel : (3 <= 3)%nat) by lia.
  assert (Hko : ~ accepts 2 (power_on thread [0; 3])) by (apply dk_second_answer_bad; lia).
  split; [exact Hfuel|]. split; [apply accepts_nil|]. split; [exact Hko|]. split.
  - destruct (proj1 (timer_init_registers_or_halts 3%nat (power_on thread []) Hfuel)
                (accepts_nil 2 thread)) as (w' & Hrun & Ht & _).
    exists w'. split; [exact Hrun|exact Ht].
  - destruct (proj1 (proj2 (timer_init_registers_or_halts 3%nat (power_on thread [0; 3]) Hfuel))
                Hko) as (code & w' & tr & _ & Hrun & Ht & _).
    exists code, w'. split; [exact Hrun|exact Ht].
Defined.

(** [gpio_init_configures] from power-on. *)
Lemma gpio_init_configures_witness :
  (8 <= 8)%nat /\ accepts 4 (power_on thread []) /\
  exists w',
    run 8 dk_gpio_init (power_on thread []) = (Returned tt, w') /\
    level w' PCA10040.LED_1 = true /\
    in_enabled w' PCA10040.BUTTON_1 = true /\ in_enabled w' PCA10040.BUTTON_2 = true.
Proof.
  assert (Hfuel : (8 <= 8)%nat) by lia.
  split; [exact Hfuel|]. split; [apply accepts_nil|].
  destruct (gpio_init_configures PCA10040.BUTTON_1 PCA10040.BUTTON_2 PCA10040.LED_1
              8%nat (power_on thread []) Hfuel (accepts_nil 4 thread))
    as (w' & Hrun & Hlev & _ & _ & _ & He1 & He2 & _).
  exists w'. repeat split; assumption.
Defined.

(** [gpio_init_failure_enables_nothing] when [nrf_drv_gpiote_out_init]
    reports an error. *)
Lemma gpio_init_failure_enables_nothing_witness :
  (8 <= 8)%nat /\ ~ accepts 4 (power_on thread [0; 3]) /\
  exists code w',
    run 8 dk_gpio_init (power_on thread [0; 3]) = (Halted code, w') /\
    in_enabled w' = in_enabled (power_on thread [0; 3]).
Proof.
  assert (Hfuel : (8 <= 8)%nat) by lia.
  assert (Hko : ~ accepts 4 (power_on thread [0; 3])) by (apply dk_second_answer_bad; lia).
  split; [exact Hfuel|]. split; [exact Hko|].
  destruct (gpio_init_failure_enables_nothing PCA10040.BUTTON_1 PCA10040.BUTTON_2
              PCA10040.LED_1 8%nat (power_on thread [0; 3]) Hfuel Hko)
    as (code & w' & tr & _ & Hrun & _ & _ & _ & Hine & _).
  exists code, w'. split; [exact Hrun|exact Hine].
Defined.

(** [main_banner_iff_setup_ok] with a failing [NRF_LOG_INIT]. *)
Lemma main_banner_iff_setup_ok_witness :
  (14 <= 14)%nat /\
  (accepts 8 (power_on thread [0; 3]) \/
   log (snd (run 14 dk_main (power_on thread [0; 3]))) = []).
Proof.
  assert (Hfuel : (14 <= 14)%nat) by lia.
  split; [exact Hfuel|].
  destruct (main_banner_iff_setup_ok PCA10040.BUTTON_1 PCA10040.BUTTON_2 PCA10040.LED_1
              14%nat (power_on thread [0; 3]) Hfuel) as [(Hok & _)|(_ & _ & Hlog)].
  - left. exact Hok.
  - right. exact Hlog.
Defined.

(** [button_handler_leaves_pins] for a stop from the interrupt level. *)
Lemma button_handler_leaves_pins_witness :
  (5 <= 5)%nat /\
  level (snd (run 5 (dk_button_handler PCA10040.BUTTON_2)
                (power_on PCA10040.APP_IRQ_PRIORITY_LOW []))) =
  level (power_on PCA10040.APP_IRQ_PRIORITY_LOW []).
Proof.
  assert (Hfuel : (5 <= 5)%nat) by lia.
  split; [exact Hfuel|].
  exact (proj1 (button_handler_leaves_pins PCA10040.BUTTON_1 PCA10040.BUTTON_2 thread
                  PCA10040.APP_TIMER_TICKS dk_buttons_distinct 5%nat PCA10040.BUTTON_2
                  (power_on PCA10040.APP_IRQ_PRIORITY_LOW []) Hfuel)).
Defined.

(** [button_handler_mode_only_in_log] for a start in thread mode and at the
    interrupt level. *)
Lemma button_handler_mode_only_in_log_witness :
  (5 <= 5)%nat /\
  fst (run 5 (dk_button_handler PCA10040.BUTTON_1)
         (set_priority thread (power_on thread []))) =
  fst (run 5 (dk_button_handler PCA10040.BUTTON_1)
         (set_priority PCA10040.APP_IRQ_PRIORITY_LOW (power_on thread []))).
Proof.
  assert (Hfuel : (5 <= 5)%nat) by lia.
  split; [exact Hfuel|].
  exact (proj1 (button_handler_mode_only_in_log PCA10040.BUTTON_1 PCA10040.BUTTON_2 thread
                  PCA10040.APP_TIMER_TICKS dk_buttons_distinct 5%nat PCA10040.BUTTON_1
                  (power_on thread []) thread PCA10040.APP_IRQ_PRIORITY_LOW Hfuel)).
Defined.

(** [ticks_blink] for three ticks on a running timer. *)
Lemma ticks_blink_witness :
  let w := set_timeout_handler (Some timer_handler_ptr)
             (set_blink RUNNING (power_on PCA10040.APP_IRQ_PRIORITY_LOW [])) in
  (4 <= 4)%nat /\ toggle_active w = true /\
  exists w', dk_timer_ticks 4 3 w = (Returned tt, w') /\ level w' PCA10040.LED_1 = true.
Proof.
  intros w.
  assert (Hfuel : (4 <= 4)%nat) by lia.
  assert (Hon : toggle_active w = true) by reflexivity.
  split; [exact Hfuel|]. split; [exact Hon|].
  destruct (ticks_blink PCA10040.LED_1 thread 4%nat 3%nat w Hfuel Hon)
    as (w' & Hticks & Hlev & _).
  exists w'. split; [exact Hticks|exact Hlev].
Defined.

(** [stop_freezes_led] for a stop after one tick. *)
Lemma stop_freezes_led_witness :
  let w := set_timeout_handler (Some timer_handler_ptr)
             (power_on PCA10040.APP_IRQ_PRIORITY_LOW []) in
  (5 <= 5)%nat /\ serving w /\
  exists w3,
    dk_timer_ticks 5 2 w3 = (Returned tt, w3) /\
    blink w3 = STOPPED /\ level w3 PCA10040.LED_1 = true.
Proof.
  intros w.
  assert (Hfuel : (5 <= 5)%nat) by lia.
  assert (Hs : serving w) by (split; [constructor|reflexivity]).
  split; [exact Hfuel|]. split; [exact Hs|].
  destruct (stop_freezes_led PCA10040.BUTTON_1 PCA10040.BUTTON_2 PCA10040.LED_1 thread
              PCA10040.APP_TIMER_TICKS dk_buttons_distinct 5%nat 1%nat 2%nat w
              NRF_GPIOTE_POLARITY_HITOLO NRF_GPIOTE_POLARITY_HITOLO Hfuel Hs)
    as (w1 & w2 & w3 & _ & _ & _ & Hidle & Hb & Hlev & _).
  exists w3. split; [exact Hidle|]. split; [exact Hb|exact Hlev].
Defined.
